(** * Cyber Cloud Kenya backend: newsletter subscriber lifecycle and broadcast

  A shallow embedding of the newsletter part of the backend:

  - [models/Newsletter.js]: the subscriber schema, its pre-save hook and
    its two query statics;
  - [services/emailService.js]: [createTransporter],
    [sendNewsletterConfirmation], [sendNewsletter];
  - [routes/newsletter.js]: POST /subscribe, POST /unsubscribe and
    GET /unsubscribe;
  - [routes/admin.js]: POST /newsletter/send;
  - [models/Contact.js]: the contact schema and its pre-save hook;
  - [services/emailService.js] again: [sendContactNotification] and
    [sendPasswordReset].

  The collection is a list of documents in storage order.  Handlers are
  written in a small state-and-exception monad over a world made of the
  collection, the state of the mail transport and the trace of the
  messages handed to it; requests are served one at a time.  A string is
  held as its UTF-8 bytes; dates are integers (milliseconds);
  [emailCount] is a Number that holds an integer; [console] output is not
  part of the world, and the database is always reachable.  The external
  libraries (express-validator's e-mail checks, nodemailer's transport)
  are interfaces whose behaviour is left arbitrary. *)

From Stdlib Require Import ZArith Ascii String DecimalString.
From stdpp Require Import base option list strings.

Local Open Scope string_scope.
Local Open Scope Z_scope.
Local Open Scope list_scope.

(** ** JavaScript strings and values *)

Module Js.

(** A string is held as its UTF-8 bytes.  A byte of the form 10xxxxxx
    continues a character; any other byte starts one. *)
Definition continuation (c : ascii) : bool :=
  andb (Nat.leb 128 (nat_of_ascii c)) (Nat.leb (nat_of_ascii c) 191).

(** The characters of a string, each with the bytes that encode it. *)
Fixpoint characters (s : string) : list string :=
  match s with
  | EmptyString => []
  | String c s' =>
      match characters s' with
      | String c' ch :: rest =>
          if continuation c'
          then String c (String c' ch) :: rest
          else String c EmptyString :: String c' ch :: rest
      | rest => String c EmptyString :: rest
      end
  end.

(** [chars.join('')] *)
Definition join (chars : list string) : string :=
  fold_right String.append EmptyString chars.

(** The string of the given bytes. *)
Definition bytes (l : list nat) : string :=
  fold_right (λ n s, String (ascii_of_nat n) s) EmptyString l.

(** [s.length]: the UTF-16 code units of [s], one for a character and two
    for a character beyond the Basic Multilingual Plane, which is one of
    four bytes. *)
Fixpoint length (s : string) : nat :=
  match s with
  | EmptyString => 0
  | String c s' =>
      (if continuation c then 0
       else if Nat.leb 240 (nat_of_ascii c) then 2 else 1)
      + length s'
  end.

Definition truthyString (s : option string) : bool :=
  match s with
  | None => false
  | Some EmptyString => false
  | Some _ => true
  end.

(** [a || b] where [a] is a string or undefined. *)
Definition orString (a b : option string) : option string :=
  if truthyString a then a else b.

(** [a || b] where [a] is an array or undefined: every array is truthy,
    the empty one too. *)
Definition orArray {A} (a : option (list A)) (b : list A) : list A :=
  match a with
  | Some l => l
  | None => b
  end.

(** A thrown [Error]; only its [message] is ever read. *)
Record Error := { message : string }.

Definition lowerChar (c : ascii) : ascii :=
  let n := nat_of_ascii c in
  if andb (Nat.leb 65 n) (Nat.leb n 90) then ascii_of_nat (n + 32) else c.

(** [s.toLowerCase()], on the letters A to Z; an address the schema
    accepts has no other letters. *)
Fixpoint toLowerCase (s : string) : string :=
  match s with
  | EmptyString => EmptyString
  | String c s' => String (lowerChar c) (toLowerCase s')
  end.

(** [x + 1] on a Number that holds an integer.  The sum is exact while it
    is at most 2^53 in magnitude; beyond, it is rounded to the nearest
    Number, and to the one with the even significand when two are equally
    near, so that 2^53 + 1 is 2^53 again. *)
Definition plusOne (x : Z) : Z :=
  if Z.abs (x + 1) <=? 2 ^ 53 then x + 1
  else if Z.abs x <? 2 ^ 54 then (if Z.even (x / 2) then x else x + 2)
  else x.

End Js.

(** ** express-validator: the validators and sanitizers the routes use *)

Module Validator.

(** The characters of [\s]: tab to carriage return and the space, then
    U+00A0, U+1680, U+2000 to U+200A, U+2028, U+2029, U+202F, U+205F,
    U+3000 and U+FEFF. *)
Definition whiteSpace : list string :=
  Js.bytes <$>
    [ [9]; [10]; [11]; [12]; [13]; [32];
      [194; 160];
      [225; 154; 128];
      [226; 128; 128]; [226; 128; 129]; [226; 128; 130]; [226; 128; 131];
      [226; 128; 132]; [226; 128; 133]; [226; 128; 134]; [226; 128; 135];
      [226; 128; 136]; [226; 128; 137]; [226; 128; 138];
      [226; 128; 168]; [226; 128; 169]; [226; 128; 175];
      [226; 129; 159];
      [227; 128; 128];
      [239; 187; 191] ]%nat.

Definition isSpace (ch : string) : bool := bool_decide (ch ∈ whiteSpace).

Fixpoint dropWhile {A} (p : A → bool) (l : list A) : list A :=
  match l with
  | [] => []
  | x :: l' => if p x then dropWhile p l' else l
  end.

(** [str.replace(/^\s+/g, '')] *)
Definition ltrim (s : string) : string :=
  Js.join (dropWhile isSpace (Js.characters s)).

(** The loop that steps back over the characters [/\s/] matches. *)
Definition rtrim (s : string) : string :=
  Js.join (reverse (dropWhile isSpace (reverse (Js.characters s)))).

(** [.trim()] *)
Definition trim (s : string) : string := rtrim (ltrim s).

(** U+FE0E and U+FE0F, which [isLength] does not count. *)
Definition presentationSelectors : list string :=
  Js.bytes <$> [ [239; 184; 142]; [239; 184; 143] ]%nat.

(** [.isLength({ min, max })]: the length it holds to the bounds is
    [str.length] less the surrogate pairs and less the presentation
    selectors, that is, the number of characters that are no
    selector. *)
Definition isLength (min max : N) (s : string) : bool :=
  let len :=
    N.of_nat
      (List.length
         (filter (λ ch, ch ∉ presentationSelectors) (Js.characters s))) in
  andb (N.leb min len) (N.leb len max).

(** [.isIn(values)] *)
Definition isIn (values : list string) (s : string) : bool :=
  bool_decide (s ∈ values).

(** [.optional()]: an absent field passes, whatever the rest of the
    chain says. *)
Definition optional {A} (check : A → bool) (v : option A) : bool :=
  match v with
  | None => true
  | Some a => check a
  end.

(** [validationResult(req)]: the fields whose chain failed, in the order
    of the chains. *)
Definition collect (checks : list (string * bool)) : list string :=
  (filter (λ c, c.2 = false) checks).*1.

End Validator.

(** [isEmail()] and [normalizeEmail()] belong to express-validator and are
    left arbitrary, but for one thing validator.js documents of
    [normalizeEmail] with its default options: what it returns is in lower
    case.  The address a POST route works with is what [normalizeEmail]
    returns, so the [lowercase] option of the schema finds nothing to
    change in it. *)
Class EmailChecks := {
  isEmail : string → bool;
  normalizeEmail : string → string;
  normalizeEmail_lowercase :
    ∀ e, Js.toLowerCase (normalizeEmail e) = normalizeEmail e
}.

(** ** models/Newsletter.js *)

Module Newsletter.

(** The [enum] of the [interests] path; the routes repeat the same list
    in their [isIn] checks. *)
Definition interestEnum : list string :=
  [ "web-development"; "graphic-design"; "video-editing";
    "music-production"; "online-jobs"; "computer-packages";
    "robotics-ml"; "cyber-security"; "all" ].

Definition sourceEnum : list string :=
  [ "website"; "social-media"; "referral"; "event"; "other" ].

Record Preferences := {
  frequency : string;
  categories : list string
}.

(** A document of the collection. *)
Record t := {
  email : string;
  name : option string;
  interests : list string;
  subscriptionSource : string;
  isActive : bool;
  subscriptionDate : Z;
  lastEmailSent : option Z;
  emailCount : Z;
  preferences : Preferences;
  ipAddress : option string;
  userAgent : option string
}.

#[global] Instance Preferences_eq_dec : EqDecision Preferences.
Proof. solve_decision. Defined.

#[global] Instance t_eq_dec : EqDecision t.
Proof. solve_decision. Defined.

(** [new Newsletter({ email, name, interests, ipAddress, userAgent })]:
    the paths the caller leaves out take the schema's defaults, and the
    two provenance strings are trimmed.  The [name] comes from the route
    already trimmed. *)
Definition create (email : string) (name : option string)
    (interests : list string) (ipAddress userAgent : option string)
    (now : Z) : t :=
  {| email := email;
     name := name;
     interests := interests;
     subscriptionSource := "website";
     isActive := true;
     subscriptionDate := now;
     lastEmailSent := None;
     emailCount := 0;
     preferences := {| frequency := "weekly"; categories := [] |};
     ipAddress := Validator.trim <$> ipAddress;
     userAgent := Validator.trim <$> userAgent |}.

Definition setInterests (l : list string) (d : t) : t :=
  {| email := email d; name := name d; interests := l;
     subscriptionSource := subscriptionSource d; isActive := isActive d;
     subscriptionDate := subscriptionDate d;
     lastEmailSent := lastEmailSent d; emailCount := emailCount d;
     preferences := preferences d; ipAddress := ipAddress d;
     userAgent := userAgent d |}.

Definition setIsActive (b : bool) (d : t) : t :=
  {| email := email d; name := name d; interests := interests d;
     subscriptionSource := subscriptionSource d; isActive := b;
     subscriptionDate := subscriptionDate d;
     lastEmailSent := lastEmailSent d; emailCount := emailCount d;
     preferences := preferences d; ipAddress := ipAddress d;
     userAgent := userAgent d |}.

Definition setName (n : option string) (d : t) : t :=
  {| email := email d; name := n; interests := interests d;
     subscriptionSource := subscriptionSource d; isActive := isActive d;
     subscriptionDate := subscriptionDate d;
     lastEmailSent := lastEmailSent d; emailCount := emailCount d;
     preferences := preferences d; ipAddress := ipAddress d;
     userAgent := userAgent d |}.

Definition setSubscriptionDate (z : Z) (d : t) : t :=
  {| email := email d; name := name d; interests := interests d;
     subscriptionSource := subscriptionSource d; isActive := isActive d;
     subscriptionDate := z;
     lastEmailSent := lastEmailSent d; emailCount := emailCount d;
     preferences := preferences d; ipAddress := ipAddress d;
     userAgent := userAgent d |}.

(** The update document of the admin route,
    [{ $inc: { emailCount: 1 }, lastEmailSent: now }]; the counter is a
    Number, and so is the sum. *)
Definition countDelivery (now : Z) (d : t) : t :=
  {| email := email d; name := name d; interests := interests d;
     subscriptionSource := subscriptionSource d; isActive := isActive d;
     subscriptionDate := subscriptionDate d;
     lastEmailSent := Some now; emailCount := Js.plusOne (emailCount d);
     preferences := preferences d; ipAddress := ipAddress d;
     userAgent := userAgent d |}.

(** [newsletterSchema.pre('save', ...)]: default interests, for a new
    document only. *)
Definition preSave (isNew : bool) (d : t) : t :=
  if andb isNew (Nat.eqb (length (interests d)) 0)
  then setInterests ["all"] d
  else d.

(** The collection, in storage order. *)
Definition collection := list t.

(** [Newsletter.findOne({ email })]: position and document of the first
    match. *)
Definition findOne (e : string) (c : list t) : option (nat * t) :=
  list_find (λ d, email d = e) c.

(** [find({ isActive: true })] *)
Definition getActiveSubscribers (c : list t) : list t :=
  filter (λ d, isActive d = true) c.

(** [find({ isActive: true, $or: [{ interests: interest },
    { interests: 'all' }] })]; a scalar condition on an array path holds
    when some element of the array equals it. *)
Definition getSubscribersByInterest (interest : string) (c : list t)
    : list t :=
  filter (λ d, isActive d = true ∧
               (interest ∈ interests d ∨ "all" ∈ interests d)) c.

(** [Newsletter.updateMany({ email: { $in: emails } }, update)] *)
Definition updateMany (emails : list string) (update : t → t)
    (c : list t) : list t :=
  (λ d, if bool_decide (email d ∈ emails) then update d else d) <$> c.

End Newsletter.

(** *** The schema's validators, run by every [save()] *)

Module Pattern.

(** Regular expressions over bytes, matched by derivatives: enough for the
    pattern of the [email] path, which has no back-reference or look-around,
    so [test] is language membership.  Its classes hold ASCII characters
    only, so a character of several bytes is in none of them, and neither
    is any of its bytes. *)
Inductive Regex :=
| Void
| Eps
| Class (p : ascii → bool)
| Seq (r1 r2 : Regex)
| Alt (r1 r2 : Regex)
| Star (r : Regex).

Fixpoint nullable (r : Regex) : bool :=
  match r with
  | Void => false
  | Eps => true
  | Class _ => false
  | Seq r1 r2 => andb (nullable r1) (nullable r2)
  | Alt r1 r2 => orb (nullable r1) (nullable r2)
  | Star _ => true
  end.

Fixpoint deriv (c : ascii) (r : Regex) : Regex :=
  match r with
  | Void => Void
  | Eps => Void
  | Class p => if p c then Eps else Void
  | Seq r1 r2 =>
      if nullable r1
      then Alt (Seq (deriv c r1) r2) (deriv c r2)
      else Seq (deriv c r1) r2
  | Alt r1 r2 => Alt (deriv c r1) (deriv c r2)
  | Star r1 => Seq (deriv c r1) (Star r1)
  end.

(** [/^r$/.test(s)] *)
Fixpoint test (r : Regex) (s : string) : bool :=
  match s with
  | EmptyString => nullable r
  | String c s' => test (deriv c r) s'
  end.

Definition Plus (r : Regex) : Regex := Seq r (Star r).
Definition Opt (r : Regex) : Regex := Alt r Eps.

Definition between (lo hi : nat) (c : ascii) : bool :=
  andb (Nat.leb lo (nat_of_ascii c)) (Nat.leb (nat_of_ascii c) hi).

(** [\w]: a letter, a digit or the underscore. *)
Definition word (c : ascii) : bool :=
  orb (orb (between 65 90 c) (between 97 122 c))
      (orb (between 48 57 c) (Nat.eqb (nat_of_ascii c) 95)).

Definition char (n : nat) (c : ascii) : bool := Nat.eqb (nat_of_ascii c) n.

(** [[.-]] *)
Definition dotOrDash (c : ascii) : bool := orb (char 46 c) (char 45 c).

(** [\w+([.-]?\w+)*] *)
Definition words : Regex :=
  Seq (Plus (Class word))
      (Star (Seq (Opt (Class dotOrDash)) (Plus (Class word)))).

(** [/^\w+([.-]?\w+)*@\w+([.-]?\w+)*(\.\w{2,3})+$/] *)
Definition emailPattern : Regex :=
  Seq words
      (Seq (Class (char 64))
           (Seq words
                (Plus (Seq (Class (char 46))
                           (Seq (Class word)
                                (Seq (Class word) (Opt (Class word)))))))).

End Pattern.

Module Schema.

Import Newsletter.

(** The [validate] of the [email] path. *)
Definition emailValidator (e : string) : bool :=
  Pattern.test Pattern.emailPattern e.

Definition frequencyEnum : list string :=
  [ "daily"; "weekly"; "monthly"; "occasional" ].

Definition categoryEnum : list string :=
  [ "news"; "tips"; "offers"; "events"; "updates" ].

(** Document validation: [required] and [validate] of [email], [maxlength]
    of [name], and the [enum]s. *)
Definition validate (d : t) : bool :=
  negb (String.eqb (email d) EmptyString)
  && emailValidator (email d)
  && Validator.optional (λ n, Nat.leb (Js.length n) 100) (name d)
  && forallb (Validator.isIn interestEnum) (interests d)
  && Validator.isIn sourceEnum (subscriptionSource d)
  && Validator.isIn frequencyEnum (frequency (preferences d))
  && forallb (Validator.isIn categoryEnum) (categories (preferences d)).

(** [doc.save()] of a new document: validation, then the pre-save hook,
    then the insert, which the unique index on [email] refuses for an
    address already in the collection. *)
Definition saveNew (d : t) (c : list t) : Js.Error + t * list t :=
  if negb (validate d)
  then inl {| Js.message := "Newsletter validation failed" |}
  else
    let d' := preSave true d in
    if bool_decide (email d' ∈ email <$> c)
    then inl {| Js.message := "E11000 duplicate key error" |}
    else inr (d', c ++ [d']).

(** [doc.save()] of a document found at position [i]: validation of the
    whole document, the paths read from the collection as well as those
    the route has set, then the pre-save hook, then the update in place. *)
Definition saveExisting (i : nat) (d : t) (c : list t)
    : Js.Error + list t :=
  if negb (validate d)
  then inl {| Js.message := "Newsletter validation failed" |}
  else inr (<[i := preSave false d]> c).

End Schema.

(** ** The mail transport and the world the handlers run in *)

(** [mailOptions] *)
Record MailOptions := {
  from : string;
  to : string;
  subject : string;
  html : string
}.

(** nodemailer.  [Transport] is whatever state the SMTP side has between
    two calls; [createTransport] says whether building the transporter
    throws in that state, and [deliver] is [transporter.sendMail]: it
    resolves with [info.messageId] or rejects with an error, and moves the
    state on. *)
Class MailTransport := {
  Transport : Type;
  createTransport : Transport → option Js.Error;
  deliver : Transport → MailOptions → (string + Js.Error) * Transport
}.

(** The template literals of emailService.js, which read [process.env]:
    the sender header, the welcome page for a name, and the newsletter page
    for a subject, a content and the recipient's address. *)
Class MailTemplates := {
  sender : string;
  confirmationHtml : option string → string;
  newsletterHtml : string → string → string → string
}.

Section World.

Context `{MailTransport}.

Record World := {
  store : list Newsletter.t;
  smtp : Transport;
  outbox : list MailOptions
}.

(** How a piece of JavaScript completes. *)
Inductive Completion (A : Type) :=
| Normal (a : A)
| Throw (e : Js.Error).

#[global] Arguments Normal {A} a.
#[global] Arguments Throw {A} e.

Definition M (A : Type) : Type := World → Completion A * World.

Definition ret {A} (a : A) : M A := λ w, (Normal a, w).

Definition throw {A} (e : Js.Error) : M A := λ w, (Throw e, w).

Definition bind {A B} (m : M A) (k : A → M B) : M B :=
  λ w, match m w with
       | (Normal a, w') => k a w'
       | (Throw e, w') => (Throw e, w')
       end.

(** [try { m } catch (error) { h error }] *)
Definition tryCatch {A} (m : M A) (h : Js.Error → M A) : M A :=
  λ w, match m w with
       | (Normal a, w') => (Normal a, w')
       | (Throw e, w') => h e w'
       end.

Definition getStore : M (list Newsletter.t) := λ w, (Normal (store w), w).

Definition putStore (c : list Newsletter.t) : M unit :=
  λ w, (Normal tt, {| store := c; smtp := smtp w; outbox := outbox w |}).

End World.

Declare Scope js_scope.
Delimit Scope js_scope with js.
Notation "'do' x ← m 'in' k" := (bind m (λ x, k))
  (at level 10, x name, m at level 100, k at level 200) : js_scope.
Notation "'try' m 'catch' e ⇒ h" := (tryCatch m (λ e, h))
  (at level 10, e name, m at level 200, h at level 200) : js_scope.

(** ** services/emailService.js *)

Module EmailService.

(** What a send function returns for one message: [{ success: true,
    messageId }] or [{ success: false, error }]. *)
Record Status := {
  success : bool;
  messageId : option string;
  error : option string
}.

(** An element of [results]: [{ email, success: true, messageId }] or
    [{ email, success: false, error }]. *)
Record Outcome := {
  email : string;
  status : Status
}.

Definition sent (id : string) : Status :=
  {| success := true; messageId := Some id; error := None |}.

Definition failed (e : Js.Error) : Status :=
  {| success := false; messageId := None; error := Some (Js.message e) |}.

(** What [sendNewsletter] evaluates to: the [results] array, or the single
    object of its outer [catch]. *)
Inductive Value :=
| Array (results : list Outcome)
| Object (s : Status).

Section Service.

Context `{MailTransport} `{MailTemplates}.

Local Open Scope js_scope.

(** [createTransporter()] *)
Definition createTransporter : M unit :=
  λ w, match createTransport (smtp w) with
       | Some e => (Throw e, w)
       | None => (Normal tt, w)
       end.

(** [await transporter.sendMail(mailOptions)], giving [info.messageId];
    every call is appended to the outbox, delivered or not. *)
Definition sendMail (mailOptions : MailOptions) : M string :=
  λ w, let (r, t) := deliver (smtp w) mailOptions in
       let w' := {| store := store w; smtp := t;
                    outbox := outbox w ++ [mailOptions] |} in
       match r with
       | inl id => (Normal id, w')
       | inr e => (Throw e, w')
       end.

Definition sendNewsletterConfirmation (email : string)
    (name : option string) : M Status :=
  try
    (do transporter ← createTransporter in
     let mailOptions :=
       {| from := sender;
          to := email;
          subject := "Welcome to Cyber Cloud Kenya Newsletter!";
          html := confirmationHtml name |} in
     do id ← sendMail mailOptions in
     ret (sent id))
  catch error ⇒ ret (failed error).

(** The [mailOptions] of the loop body. *)
Definition newsletterMail (subject content : string)
    (subscriber : Newsletter.t) : MailOptions :=
  {| from := sender;
     to := Newsletter.email subscriber;
     subject := subject;
     html := newsletterHtml subject content (Newsletter.email subscriber) |}.

(** The body of [for (const subscriber of subscribers)], on the [results]
    built so far. *)
Definition sendOne (subject content : string) (subscriber : Newsletter.t)
    (results : list Outcome) : M (list Outcome) :=
  let mailOptions := newsletterMail subject content subscriber in
  try
    (do id ← sendMail mailOptions in
     ret (results ++ [ {| email := Newsletter.email subscriber;
                          status := sent id |} ]))
  catch error ⇒
    ret (results ++ [ {| email := Newsletter.email subscriber;
                         status := failed error |} ]).

(** [for ... of], threading the array the body pushes to. *)
Fixpoint forOf {A S} (body : A → S → M S) (l : list A) (s : S) : M S :=
  match l with
  | [] => ret s
  | a :: l' => do s' ← body a s in forOf body l' s'
  end.

Definition sendNewsletter (subject content : string)
    (subscribers : list Newsletter.t) : M Value :=
  try
    (do transporter ← createTransporter in
     do results ← forOf (sendOne subject content) subscribers [] in
     ret (Array results))
  catch error ⇒ ret (Object (failed error)).

End Service.

End EmailService.

(** ** The routes *)

Module Http.

(** The [data] of a response body. *)
Inductive Data :=
| Subscription (email : string) (name : option string)
    (interests : list string) (subscriptionDate : option Z)
| SendSummary (totalSubscribers successfulSends failedSends : nat).

(** [res.status(status).json({ success, message, data, errors })];
    [errors] lists the fields that failed validation. *)
Record Response := {
  status : nat;
  success : bool;
  message : string;
  data : option Data;
  errors : list string
}.

Definition json (status : nat) (success : bool) (message : string)
    (data : option Data) : Response :=
  {| status := status; success := success; message := message;
     data := data; errors := [] |}.

Definition validationFailed (errors : list string) : Response :=
  {| status := 400; success := false; message := "Validation failed";
     data := None; errors := errors |}.

End Http.

(** *** routes/newsletter.js *)

Module NewsletterRoutes.

Import Http.

(** What POST /subscribe reads of the request: three body fields (an
    [interests] that is present is an array of strings), [req.ip] and the
    User-Agent header. *)
Record SubscribeRequest := {
  email : string;
  name : option string;
  interests : option (list string);
  ip : option string;
  userAgent : option string
}.

Section Routes.

Context `{EmailChecks} `{MailTransport} `{MailTemplates}.

Local Open Scope js_scope.

Definition subscribeChecks (req : SubscribeRequest) : list (string * bool) :=
  [ ("email", isEmail (email req));
    ("name",
      Validator.optional
        (λ n, Validator.isLength 2 100 (Validator.trim n)) (name req));
    ("interests", Validator.optional (λ _, true) (interests req));
    ("interests.*",
      Validator.optional
        (forallb (Validator.isIn Newsletter.interestEnum)) (interests req)) ].

(** [await subscriber.save()] for a new document. *)
Definition saveNew (d : Newsletter.t) : M Newsletter.t :=
  λ w, match Schema.saveNew d (store w) with
       | inl e => (Throw e, w)
       | inr (d', c) =>
           (Normal d', {| store := c; smtp := smtp w; outbox := outbox w |})
       end.

(** [await existingSubscriber.save()], for the document found at position
    [i]. *)
Definition saveExisting (i : nat) (d : Newsletter.t) : M unit :=
  λ w, match Schema.saveExisting i d (store w) with
       | inl e => (Throw e, w)
       | inr c =>
           (Normal tt, {| store := c; smtp := smtp w; outbox := outbox w |})
       end.

(** POST /api/newsletter/subscribe *)
Definition subscribe (req : SubscribeRequest) (now : Z) : M Response :=
  try
    (let errors := Validator.collect (subscribeChecks req) in
     if negb (bool_decide (errors = []))
     then ret (validationFailed errors)
     else
       let email := normalizeEmail (email req) in
       let name := Validator.trim <$> name req in
       let interests := interests req in
       do c ← getStore in
       match Newsletter.findOne email c with
       | Some (i, existingSubscriber) =>
           if Newsletter.isActive existingSubscriber
           then ret (json 400 false
                       "This email is already subscribed to our newsletter"
                       None)
           else
             let existingSubscriber :=
               Newsletter.setIsActive true existingSubscriber in
             let existingSubscriber :=
               Newsletter.setName
                 (Js.orString name (Newsletter.name existingSubscriber))
                 existingSubscriber in
             let existingSubscriber :=
               Newsletter.setInterests
                 (Js.orArray interests
                    (Newsletter.interests existingSubscriber))
                 existingSubscriber in
             let existingSubscriber :=
               Newsletter.setSubscriptionDate now existingSubscriber in
             do saved ← saveExisting i existingSubscriber in
             do emailResult ←
               EmailService.sendNewsletterConfirmation email name in
             ret (json 200 true "Subscription reactivated successfully!"
                    (Some (Subscription
                             (Newsletter.email existingSubscriber)
                             (Newsletter.name existingSubscriber)
                             (Newsletter.interests existingSubscriber)
                             None)))
       | None =>
           let subscriber :=
             Newsletter.create email name (Js.orArray interests ["all"])
               (ip req) (userAgent req) now in
           do subscriber ← saveNew subscriber in
           do emailResult ←
             EmailService.sendNewsletterConfirmation email name in
           ret (json 201 true "Successfully subscribed to newsletter!"
                  (Some (Subscription
                           (Newsletter.email subscriber)
                           (Newsletter.name subscriber)
                           (Newsletter.interests subscriber)
                           (Some (Newsletter.subscriptionDate subscriber)))))
       end)
  catch error ⇒
    ret (json 500 false "Server error. Please try again later." None).

(** POST /api/newsletter/unsubscribe; the body's [email] is all it
    reads. *)
Definition unsubscribe (email : string) : M Response :=
  try
    (let errors := Validator.collect [ ("email", isEmail email) ] in
     if negb (bool_decide (errors = []))
     then ret (validationFailed errors)
     else
       let email := normalizeEmail email in
       do c ← getStore in
       match Newsletter.findOne email c with
       | None =>
           ret (json 404 false "Email not found in our newsletter list" None)
       | Some (i, subscriber) =>
           if negb (Newsletter.isActive subscriber)
           then ret (json 200 true "You have already been unsubscribed" None)
           else
             let subscriber := Newsletter.setIsActive false subscriber in
             do saved ← saveExisting i subscriber in
             ret (json 200 true "Successfully unsubscribed from newsletter"
                    None)
       end)
  catch error ⇒
    ret (json 500 false "Server error. Please try again later." None).

(** What GET /unsubscribe hands to [res.send]: a line of text, or the
    page that confirms. *)
Inductive Body :=
| Text (line : string)
| UnsubscribedPage.

(** GET /api/newsletter/unsubscribe, the target of links in mails; it
    reads [req.query.email], which no validator or sanitizer has seen, and
    answers with a status and a body.  The query is cast by the schema,
    whose [lowercase] option puts the address it looks for in lower
    case. *)
Definition unsubscribeLink (email : option string) : M (nat * Body) :=
  try
    (match email with
     | Some address =>
         if negb (Js.truthyString email)
         then ret (400%nat, Text "Email parameter is required")
         else
           do c ← getStore in
           match Newsletter.findOne (Js.toLowerCase address) c with
           | None =>
               ret (200%nat, Text "Email not found in our newsletter list")
           | Some (i, subscriber) =>
               if negb (Newsletter.isActive subscriber)
               then ret (200%nat, Text "You have already been unsubscribed")
               else
                 let subscriber := Newsletter.setIsActive false subscriber in
                 do saved ← saveExisting i subscriber in
                 ret (200%nat, UnsubscribedPage)
           end
     | None => ret (400%nat, Text "Email parameter is required")
     end)
  catch error ⇒ ret (500%nat, Text "Server error. Please try again later.").

End Routes.

End NewsletterRoutes.

(** *** routes/admin.js *)

Module AdminRoutes.

Import Http.

(** The body of POST /newsletter/send, behind [protect] and
    [authorize('admin')]. *)
Record SendRequest := {
  subject : string;
  content : string;
  targetAudience : option string;
  interest : option string
}.

Section Routes.

Context `{MailTransport} `{MailTemplates}.

Local Open Scope js_scope.

Definition sendChecks (req : SendRequest) : list (string * bool) :=
  [ ("subject", Validator.isLength 5 200 (Validator.trim (subject req)));
    ("content", Validator.isLength 10 10000 (Validator.trim (content req)));
    ("targetAudience",
      Validator.optional
        (Validator.isIn ["all"; "active"; "specific-interest"])
        (targetAudience req));
    ("interest",
      Validator.optional (Validator.isIn Newsletter.interestEnum)
        (interest req)) ].

(** "Get subscribers based on target audience": the [if] that picks the
    query. *)
Definition selectSubscribers (targetAudience interest : option string)
    (c : list Newsletter.t) : list Newsletter.t :=
  match interest with
  | Some tag =>
      if bool_decide (targetAudience = Some "specific-interest")
         && Js.truthyString interest
      then Newsletter.getSubscribersByInterest tag c
      else Newsletter.getActiveSubscribers c
  | None => Newsletter.getActiveSubscribers c
  end.

(** [results.filter(p)]: of an array, the elements that satisfy [p]; the
    object of [sendNewsletter]'s outer catch has no [filter] to call. *)
Definition filterResults (p : EmailService.Outcome → bool)
    (results : EmailService.Value) : M (list EmailService.Outcome) :=
  match results with
  | EmailService.Array l => ret (filter (λ r, p r = true) l)
  | EmailService.Object _ =>
      throw {| Js.message := "results.filter is not a function" |}
  end.

Definition succeeded (r : EmailService.Outcome) : bool :=
  EmailService.success (EmailService.status r).

(** "Update email count for subscribers": the [updateMany] call on the
    addresses of the successful results. *)
Definition recordDeliveries (now : Z) (ok : list EmailService.Outcome)
    (c : list Newsletter.t) : list Newsletter.t :=
  Newsletter.updateMany (EmailService.email <$> ok)
    (Newsletter.countDelivery now) c.

Definition sentMessage (n : nat) : string :=
  ("Newsletter sent to " ++ NilZero.string_of_uint (Nat.to_uint n)
   ++ " subscribers")%string.

(** POST /api/admin/newsletter/send *)
Definition sendNewsletterRoute (req : SendRequest) (now : Z) : M Response :=
  try
    (let errors := Validator.collect (sendChecks req) in
     if negb (bool_decide (errors = []))
     then ret (validationFailed errors)
     else
       let subject := Validator.trim (subject req) in
       let content := Validator.trim (content req) in
       do c ← getStore in
       let subscribers :=
         selectSubscribers (targetAudience req) (interest req) c in
       if Nat.eqb (length subscribers) 0
       then ret (json 400 false
                   "No active subscribers found for the selected criteria"
                   None)
       else
         do results ← EmailService.sendNewsletter subject content subscribers in
         do ok ← filterResults succeeded results in
         let successfulSends := length ok in
         do ok' ← filterResults succeeded results in
         do c' ← getStore in
         do updated ← putStore (recordDeliveries now ok' c') in
         do bad ← filterResults (λ r, negb (succeeded r)) results in
         ret (json 200 true (sentMessage successfulSends)
                (Some (SendSummary (length subscribers) successfulSends
                         (length bad)))))
  catch error ⇒ ret (json 500 false "Server error" None).

End Routes.

End AdminRoutes.

(** ** What the transport answers to a sequence of messages *)

Module Trace.

Section Trace.

Context `{MailTransport}.

(** The answers of the transport to [mails], handed over one after the
    other from state [t]. *)
Fixpoint replies (t : Transport) (mails : list MailOptions)
    : list (string + Js.Error) :=
  match mails with
  | [] => []
  | m :: mails' => (deliver t m).1 :: replies (deliver t m).2 mails'
  end.

(** The state of the transport after them. *)
Fixpoint after (t : Transport) (mails : list MailOptions) : Transport :=
  match mails with
  | [] => t
  | m :: mails' => after (deliver t m).2 mails'
  end.

(** The element of [results] for a subscriber and the answer to their
    message. *)
Definition outcome (subscriber : Newsletter.t) (reply : string + Js.Error)
    : EmailService.Outcome :=
  {| EmailService.email := Newsletter.email subscriber;
     EmailService.status :=
       match reply with
       | inl id => EmailService.sent id
       | inr e => EmailService.failed e
       end |}.

(** The transport took the message. *)
Definition accepted (reply : string + Js.Error) : bool :=
  match reply with
  | inl _ => true
  | inr _ => false
  end.

End Trace.

End Trace.

(** ** Sequences of requests *)

Module Lifecycle.

Section Lifecycle.

Context `{EmailChecks} `{MailTransport} `{MailTemplates}.

(** A request to one of the three routes. *)
Inductive Op :=
| Subscribe (req : NewsletterRoutes.SubscribeRequest) (now : Z)
| Unsubscribe (email : string)
| Broadcast (req : AdminRoutes.SendRequest) (now : Z).

(** The world a request leaves behind. *)
Definition step (w : World) (op : Op) : World :=
  match op with
  | Subscribe req now => (NewsletterRoutes.subscribe req now w).2
  | Unsubscribe email => (NewsletterRoutes.unsubscribe email w).2
  | Broadcast req now => (AdminRoutes.sendNewsletterRoute req now w).2
  end.

Definition run (ops : list Op) (w : World) : World := foldl step w ops.

(** Every document of the collection has some interest. *)
Definition interestsNonEmpty (c : list Newsletter.t) : Prop :=
  Forall (λ d, Newsletter.interests d ≠ []) c.

(** The request is a subscribe that carries an empty [interests] array for
    an address whose document is inactive. *)
Definition reactivatesWithNoInterests (w : World) (op : Op) : bool :=
  match op with
  | Subscribe req _ =>
      bool_decide (NewsletterRoutes.interests req = Some [])
      && match Newsletter.findOne
                 (normalizeEmail (NewsletterRoutes.email req)) (store w) with
         | Some (_, d) => negb (Newsletter.isActive d)
         | None => false
         end
  | _ => false
  end.

(** No request of the sequence is one, each looked at in the world it
    arrives in. *)
Fixpoint neverReactivatesWithNoInterests (ops : list Op) (w : World)
    : Prop :=
  match ops with
  | [] => True
  | op :: ops' =>
      reactivatesWithNoInterests w op = false
      ∧ neverReactivatesWithNoInterests ops' (step w op)
  end.

(** What a request is answered. *)
Definition answer (w : World) (op : Op) : Completion Http.Response :=
  match op with
  | Subscribe req now => (NewsletterRoutes.subscribe req now w).1
  | Unsubscribe email => (NewsletterRoutes.unsubscribe email w).1
  | Broadcast req now => (AdminRoutes.sendNewsletterRoute req now w).1
  end.

End Lifecycle.

End Lifecycle.

(** ** models/Contact.js: the schema and its pre-save hook *)

Module Contact.

(** The nested [response] path. *)
Module Response.

Record t := {
  message : option string;
  respondedBy : option string;
  respondedAt : option Z
}.

End Response.

(** A contact submission. *)
Record t := {
  name : string;
  email : string;
  phone : option string;
  subject : string;
  message : string;
  service : string;
  status : string;
  priority : string;
  ipAddress : option string;
  userAgent : option string;
  response : Response.t
}.

Definition setPriority (p : string) (d : t) : t :=
  {| name := name d; email := email d; phone := phone d;
     subject := subject d; message := message d; service := service d;
     status := status d; priority := p; ipAddress := ipAddress d;
     userAgent := userAgent d; response := response d |}.

Definition highPriorityServices : list string := [ "cyber-security" ].

Definition mediumPriorityServices : list string :=
  [ "web-development"; "training-programs" ].

(** [contactSchema.pre('save', ...)]: the priority of a new submission
    follows from its service. *)
Definition preSave (isNew : bool) (d : t) : t :=
  if isNew
  then
    if bool_decide (service d ∈ highPriorityServices)
    then setPriority "high" d
    else if bool_decide (service d ∈ mediumPriorityServices)
    then setPriority "medium" d
    else setPriority "low" d
  else d.

End Contact.

(** ** services/emailService.js: the two notices *)

(** What their template literals read of [process.env] and of the clock:
    the sender header of contact notices, [ADMIN_EMAIL], the page for a
    submission at a time, and the page for a reset token. *)
Class NoticeTemplates := {
  contactSender : string;
  adminEmail : option string;
  contactHtml : Contact.t → Z → string;
  resetHtml : string → string
}.

Module Notices.

Section Notices.

Context `{MailTransport} `{MailTemplates} `{NoticeTemplates}.

Local Open Scope js_scope.

(** [process.env.ADMIN_EMAIL || 'admin@cybercloudkenya.com'] *)
Definition adminAddress : string :=
  match adminEmail with
  | Some address =>
      if Js.truthyString adminEmail
      then address
      else "admin@cybercloudkenya.com"
  | None => "admin@cybercloudkenya.com"
  end.

(** [sendContactNotification(contactData)], at time [now]. *)
Definition sendContactNotification (contactData : Contact.t) (now : Z)
    : M EmailService.Status :=
  try
    (do transporter ← EmailService.createTransporter in
     let mailOptions :=
       {| from := contactSender;
          to := adminAddress;
          subject := ("New Contact Form Submission - "
                      ++ Contact.subject contactData)%string;
          html := contactHtml contactData now |} in
     do id ← EmailService.sendMail mailOptions in
     ret (EmailService.sent id))
  catch error ⇒ ret (EmailService.failed error).

(** [sendPasswordReset(email, resetToken)] *)
Definition sendPasswordReset (email resetToken : string)
    : M EmailService.Status :=
  try
    (do transporter ← EmailService.createTransporter in
     let mailOptions :=
       {| from := sender;
          to := email;
          subject := "Password Reset Request";
          html := resetHtml resetToken |} in
     do id ← EmailService.sendMail mailOptions in
     ret (EmailService.sent id))
  catch error ⇒ ret (EmailService.failed error).

End Notices.

End Notices.

(** ** The language of a pattern *)

Module Language.

Import Pattern.

(** A pattern that matches nothing, decided on its shape. *)
Fixpoint dead (r : Regex) : bool :=
  match r with
  | Void => true
  | Eps => false
  | Class _ => false
  | Seq r1 r2 => orb (dead r1) (dead r2)
  | Alt r1 r2 => andb (dead r1) (dead r2)
  | Star _ => false
  end.

(** Every character class of the pattern lies within [p]. *)
Fixpoint within (p : ascii → bool) (r : Regex) : Prop :=
  match r with
  | Void => True
  | Eps => True
  | Class q => ∀ c, q c = true → p c = true
  | Seq r1 r2 => within p r1 ∧ within p r2
  | Alt r1 r2 => within p r1 ∧ within p r2
  | Star r1 => within p r1
  end.

(** Every character of the string satisfies [p]. *)
Fixpoint allChars (p : ascii → bool) (s : string) : bool :=
  match s with
  | EmptyString => true
  | String c s' => andb (p c) (allChars p s')
  end.

(** The number of characters of the string that satisfy [p]. *)
Fixpoint count (p : ascii → bool) (s : string) : nat :=
  match s with
  | EmptyString => 0%nat
  | String c s' => ((if p c then 1 else 0) + count p s')%nat
  end.

(** A letter, a digit, an underscore, a dot, a dash or an at sign. *)
Definition addressChar (c : ascii) : bool :=
  orb (word c) (orb (dotOrDash c) (char 64 c)).

(** Anything but an at sign. *)
Definition notAt (c : ascii) : bool := negb (char 64 c).

(** The strings of a pattern. *)
Inductive Matches : Regex → string → Prop :=
| MEps : Matches Eps EmptyString
| MClass p c : p c = true → Matches (Class p) (String c EmptyString)
| MSeq r1 r2 s1 s2 s :
    Matches r1 s1 → Matches r2 s2 → s = (s1 ++ s2)%string →
    Matches (Seq r1 r2) s
| MAltL r1 r2 s : Matches r1 s → Matches (Alt r1 r2) s
| MAltR r1 r2 s : Matches r2 s → Matches (Alt r1 r2) s
| MStarNil r : Matches (Star r) EmptyString
| MStarCons r s1 s2 s :
    Matches r s1 → Matches (Star r) s2 → s = (s1 ++ s2)%string →
    Matches (Star r) s.

(** [(\.\w{2,3})]: the last group of the address pattern. *)
Definition label : Regex :=
  Seq (Class (char 46))
      (Seq (Class word) (Seq (Class word) (Opt (Class word)))).

End Language.

(** ** Concrete collaborators, to run the handlers on *)

Module Fixture.

(** A transport that answers from a script, one entry per [sendMail], and
    accepts everything once the script is used up; [broken] makes building
    the transporter throw, as the call [nodemailer.createTransporter] of
    the service does. *)
Record Scripted := {
  broken : bool;
  script : list (string + Js.Error)
}.

#[global] Instance scripted : MailTransport := {
  Transport := Scripted;
  createTransport t :=
    if broken t
    then Some {| Js.message := "nodemailer.createTransporter is not a function" |}
    else None;
  deliver t _ :=
    match script t with
    | [] => (inl "<queued>", t)
    | r :: rest => (r, {| broken := broken t; script := rest |})
    end
}.

#[global] Instance templates : MailTemplates := {
  sender := "Cyber Cloud Kenya";
  confirmationHtml name := ("Hi " ++ default "there" name)%string;
  newsletterHtml subject content email := (subject ++ content ++ email)%string
}.

(** isEmail as the presence of an at sign; normalizeEmail as lower case
    and nothing more. *)
Fixpoint hasAt (s : string) : bool :=
  match s with
  | EmptyString => false
  | String c s' => orb (Nat.eqb (nat_of_ascii c) 64) (hasAt s')
  end.

#[global] Instance checks : EmailChecks.
Proof.
  refine {| isEmail := hasAt; normalizeEmail := Js.toLowerCase;
            normalizeEmail_lowercase := _ |}.
  intros e. induction e as [| c e IH]; [reflexivity |].
  simpl. f_equal; [| exact IH].
  destruct c as [[] [] [] [] [] [] [] []]; reflexivity.
Defined.

Definition world (c : list Newsletter.t) (t : Scripted) : World :=
  {| store := c; smtp := t; outbox := [] |}.

Definition working : Scripted := {| broken := false; script := [] |}.

Definition subscriber (email : string) (interests : list string)
    (isActive : bool) : Newsletter.t :=
  Newsletter.setIsActive isActive
    (Newsletter.create email None interests None None 0).

(** nodemailer as it is published: the module exports [createTransport]
    and has no [createTransporter], so the call the service makes throws a
    TypeError before any transporter exists. *)
Definition unbuildable : Scripted := {| broken := true; script := [] |}.

(** A transport that refuses the second message it is handed. *)
Definition refusesSecond : Scripted :=
  {| broken := false;
     script := [ inl "<m1>";
                 inr {| Js.message := "550 mailbox unavailable" |};
                 inl "<m3>" ] |}.

(** A transport that refuses the first message it is handed. *)
Definition refusesFirst : Scripted :=
  {| broken := false;
     script := [ inr {| Js.message := "421 service not available" |} ] |}.

Definition ann : Newsletter.t := subscriber "a@x.com" ["web-development"] true.
Definition bob : Newsletter.t := subscriber "b@x.com" ["all"] true.
Definition cat : Newsletter.t := subscriber "c@x.com" ["cyber-security"] true.
Definition dan : Newsletter.t := subscriber "d@x.com" ["all"] false.

(** subscribe("a@x.com", "Ann", ["web-development"]) *)
Definition subscribeAnn : NewsletterRoutes.SubscribeRequest :=
  {| NewsletterRoutes.email := "a@x.com";
     NewsletterRoutes.name := Some "Ann";
     NewsletterRoutes.interests := Some ["web-development"];
     NewsletterRoutes.ip := Some "10.0.0.7";
     NewsletterRoutes.userAgent := None |}.

(** The same address again, with an empty array of interests. *)
Definition subscribeAnnNoInterests : NewsletterRoutes.SubscribeRequest :=
  {| NewsletterRoutes.email := "a@x.com";
     NewsletterRoutes.name := None;
     NewsletterRoutes.interests := Some [];
     NewsletterRoutes.ip := None;
     NewsletterRoutes.userAgent := None |}.

(** The same address again, with nothing else. *)
Definition subscribeAnnAgain : NewsletterRoutes.SubscribeRequest :=
  {| NewsletterRoutes.email := "a@x.com";
     NewsletterRoutes.name := None;
     NewsletterRoutes.interests := None;
     NewsletterRoutes.ip := None;
     NewsletterRoutes.userAgent := None |}.

Definition broadcast (targetAudience interest : option string)
    : AdminRoutes.SendRequest :=
  {| AdminRoutes.subject := "Monthly news";
     AdminRoutes.content := "Courses start in May.";
     AdminRoutes.targetAudience := targetAudience;
     AdminRoutes.interest := interest |}.

#[global] Instance notices : NoticeTemplates := {
  contactSender := "Cyber Cloud Kenya Contact";
  adminEmail := None;
  contactHtml contactData now := Contact.message contactData;
  resetHtml resetToken := resetToken
}.

(** A submission as the contact route builds it, before [save()]. *)
Definition inquiry (service priority : string) : Contact.t :=
  {| Contact.name := "Ann";
     Contact.email := "a@x.com";
     Contact.phone := None;
     Contact.subject := "Course dates";
     Contact.message := "When does the next course start?";
     Contact.service := service;
     Contact.status := "new";
     Contact.priority := priority;
     Contact.ipAddress := None;
     Contact.userAgent := None;
     Contact.response :=
       {| Contact.Response.message := None;
          Contact.Response.respondedBy := None;
          Contact.Response.respondedAt := None |} |}.



(** A first subscription from an address the schema's pattern refuses. *)
Definition subscribePlus : NewsletterRoutes.SubscribeRequest :=
  {| NewsletterRoutes.email := "ann+news@x.com";
     NewsletterRoutes.name := Some "Ann";
     NewsletterRoutes.interests := None;
     NewsletterRoutes.ip := None;
     NewsletterRoutes.userAgent := None |}.

End Fixture.

(** * Properties *)

(** ** The dispatcher *)

Section Dispatch.

Context `{MailTransport} `{MailTemplates}.

Import EmailService.

(** One iteration: the message goes to the outbox, the transport moves on,
    and the outcome of this subscriber is pushed, whatever the answer. *)
Lemma sendOne_spec subject content subscriber results w :
  sendOne subject content subscriber results w =
    let m := newsletterMail subject content subscriber in
    (Normal (results ++ [Trace.outcome subscriber (deliver (smtp w) m).1]),
     {| store := store w;
        smtp := (deliver (smtp w) m).2;
        outbox := outbox w ++ [m] |}).
Proof.
  unfold sendOne, tryCatch, bind, sendMail, ret, Trace.outcome; simpl.
  destruct (deliver (smtp w) (newsletterMail subject content subscriber))
    as [[id | e] t]; reflexivity.
Qed.

(** The whole loop never throws and never stops early. *)
Lemma forOf_sendOne subject content subscribers : ∀ results w,
  forOf (sendOne subject content) subscribers results w =
    let mails := newsletterMail subject content <$> subscribers in
    (Normal (results
             ++ zip_with Trace.outcome subscribers
                  (Trace.replies (smtp w) mails)),
     {| store := store w;
        smtp := Trace.after (smtp w) mails;
        outbox := outbox w ++ mails |}).
Proof.
  induction subscribers as [| s subscribers IH]; intros results w.
  - simpl. unfold ret. rewrite !app_nil_r. by destruct w.
  - cbn [forOf]. unfold bind at 1. rewrite sendOne_spec. cbn iota zeta beta.
    rewrite IH. cbn. by rewrite <- !app_assoc.
Qed.

Lemma sendNewsletter_working subject content subscribers w :
  createTransport (smtp w) = None →
  sendNewsletter subject content subscribers w =
    let mails := newsletterMail subject content <$> subscribers in
    (Normal (Array (zip_with Trace.outcome subscribers
                      (Trace.replies (smtp w) mails))),
     {| store := store w;
        smtp := Trace.after (smtp w) mails;
        outbox := outbox w ++ mails |}).
Proof.
  intros Hok. unfold sendNewsletter, tryCatch, bind, createTransporter.
  rewrite Hok, forOf_sendOne. reflexivity.
Qed.

Lemma sendNewsletter_broken subject content subscribers w e :
  createTransport (smtp w) = Some e →
  sendNewsletter subject content subscribers w =
    (Normal (Object (failed e)), w).
Proof.
  intros Hko. unfold sendNewsletter, tryCatch, bind, createTransporter.
  by rewrite Hko.
Qed.

Lemma sendNewsletter_store subject content subscribers w :
  store (sendNewsletter subject content subscribers w).2 = store w.
Proof.
  destruct (createTransport (smtp w)) as [e |] eqn:E.
  - by rewrite (sendNewsletter_broken _ _ _ _ e).
  - by rewrite sendNewsletter_working.
Qed.

Lemma replies_length (mails : list MailOptions) : ∀ t,
  length (Trace.replies t mails) = length mails.
Proof. induction mails; intros t; simpl; [done | by rewrite IHmails]. Qed.

(** The confirmation mail cannot throw, and touches neither the
    collection nor anything but the transport and the outbox. *)
Lemma sendNewsletterConfirmation_spec email name w :
  ∃ s t o, sendNewsletterConfirmation email name w =
    (Normal s, {| store := store w; smtp := t; outbox := o |}).
Proof.
  unfold sendNewsletterConfirmation, tryCatch, bind, createTransporter,
    sendMail, ret.
  destruct (createTransport (smtp w)); [destruct w; eauto |].
  destruct (deliver _ _) as [[id | e] t]; eauto.
Qed.

End Dispatch.

Section DispatchClaims.

Context `{MailTransport} `{MailTemplates}.

Import EmailService.

Lemma outcome_emails (subscribers : list Newsletter.t) :
  ∀ replies : list (string + Js.Error),
  length replies = length subscribers →
  email <$> zip_with Trace.outcome subscribers replies
    = Newsletter.email <$> subscribers.
Proof.
  induction subscribers as [| s subscribers IH]; intros [| r replies] Hlen;
    simplify_eq/=; [done |]. by rewrite IH.
Qed.

(** The loop of [sendNewsletter], for a nodemailer that had the factory
    the service calls: when building the transporter does not throw,
    [sendNewsletter] hands one message per recipient to the transport, in
    the order of the recipients and whatever the transport answers to the
    earlier ones, and then returns an array with one outcome per recipient
    in that same order: [{ email, success: true, messageId }] where the
    transport accepted the message, [{ email, success: false, error }]
    where it refused. *)
Theorem sendNewsletter_one_outcome_per_recipient subject content subscribers w :
  createTransport (smtp w) = None →
  ∃ results,
    (sendNewsletter subject content subscribers w).1 = Normal (Array results)
    ∧ email <$> results = Newsletter.email <$> subscribers
    ∧ outbox (sendNewsletter subject content subscribers w).2
        = outbox w ++ (newsletterMail subject content <$> subscribers)
    ∧ ∀ i subscriber,
        subscribers !! i = Some subscriber →
        ∃ reply,
          Trace.replies (smtp w)
            (newsletterMail subject content <$> subscribers) !! i
            = Some reply
          ∧ results !! i = Some
              {| email := Newsletter.email subscriber;
                 status := match reply with
                           | inl id => sent id
                           | inr e => failed e
                           end |}.
Proof.
  intros Hok. rewrite sendNewsletter_working by done. cbn zeta.
  eexists. split; [reflexivity |]. split; [| split; [reflexivity |]].
  - apply outcome_emails. by rewrite replies_length, length_fmap.
  - intros i s Hs.
    destruct (lookup_lt_is_Some_2
                (Trace.replies (smtp w)
                   (newsletterMail subject content <$> subscribers)) i)
      as [reply Hreply].
    { rewrite replies_length, length_fmap. by eapply lookup_lt_Some. }
    exists reply. split; [exact Hreply |].
    rewrite lookup_zip_with, Hs. simpl. by rewrite Hreply.
Qed.

(** With no recipient, [sendNewsletter] leaves the world as it found it,
    so nothing is handed to the transport; and when building the
    transporter does not throw, it returns the empty array. *)
Theorem sendNewsletter_nobody subject content w :
  (sendNewsletter subject content [] w).2 = w
  ∧ (createTransport (smtp w) = None →
     (sendNewsletter subject content [] w).1 = Normal (Array [])).
Proof.
  destruct (createTransport (smtp w)) as [e |] eqn:E.
  - rewrite (sendNewsletter_broken _ _ _ _ e) by done. by split.
  - rewrite sendNewsletter_working by done. cbn.
    rewrite app_nil_r. by destruct w.
Qed.

Import AdminRoutes Http.

(** C10: when building the transporter throws, [sendNewsletter] returns
    the single object [{ success: false, error }] for any recipients, with
    nothing sent; the admin route, on a valid request with a non-empty
    audience, then calls [filter] on that object, which throws, and
    answers 500 "Server error" with the collection untouched. *)
Theorem sendNewsletterRoute_broken_transport req now w e :
  createTransport (smtp w) = Some e →
  Validator.collect (sendChecks req) = [] →
  selectSubscribers (targetAudience req) (interest req) (store w) ≠ [] →
  (∀ subject content subscribers,
     sendNewsletter subject content subscribers w
       = (Normal (Object (failed e)), w))
  ∧ sendNewsletterRoute req now w
      = (Normal (json 500 false "Server error" None), w).
Proof.
  intros Hko Hvalid Haudience. split.
  - intros. by apply sendNewsletter_broken.
  - unfold sendNewsletterRoute, tryCatch. rewrite Hvalid. simpl.
    unfold bind at 1. simpl.
    destruct (selectSubscribers _ _ _) as [| s l]; [done |]. simpl.
    unfold bind at 1. rewrite (sendNewsletter_broken _ _ _ _ e) by done.
    reflexivity.
Qed.

End DispatchClaims.

(** ** The audience *)

Section Audience.

Import AdminRoutes Http.

Lemma interestEnum_truthy tag :
  tag ∈ Newsletter.interestEnum → Js.truthyString (Some tag) = true.
Proof.
  unfold Newsletter.interestEnum. rewrite !elem_of_cons, elem_of_nil.
  intros Htag. destruct_or!; by subst.
Qed.

Lemma getActiveSubscribers_active c d :
  d ∈ Newsletter.getActiveSubscribers c ↔
    d ∈ c ∧ Newsletter.isActive d = true.
Proof.
  unfold Newsletter.getActiveSubscribers. rewrite list_elem_of_filter.
  tauto.
Qed.

Lemma getSubscribersByInterest_spec tag c d :
  d ∈ Newsletter.getSubscribersByInterest tag c ↔
    d ∈ c ∧ Newsletter.isActive d = true
    ∧ (tag ∈ Newsletter.interests d ∨ "all" ∈ Newsletter.interests d).
Proof.
  unfold Newsletter.getSubscribersByInterest. rewrite list_elem_of_filter.
  tauto.
Qed.

Lemma selectSubscribers_sublist targetAudience interest c :
  selectSubscribers targetAudience interest c `sublist_of` c.
Proof.
  unfold selectSubscribers. destruct interest as [tag |];
    [destruct (_ && _) |]; apply sublist_filter.
Qed.

(** C4: for a tag of the vocabulary, the audience of [specific-interest]
    is made of exactly the documents of the collection that are active
    and whose interests contain the tag or ['all'], in storage order; and
    whatever the target, no inactive document is in the audience. *)
Theorem selectSubscribers_specific_interest tag c :
  tag ∈ Newsletter.interestEnum →
  (∀ d, d ∈ selectSubscribers (Some "specific-interest") (Some tag) c ↔
        d ∈ c ∧ Newsletter.isActive d = true
        ∧ (tag ∈ Newsletter.interests d ∨ "all" ∈ Newsletter.interests d))
  ∧ selectSubscribers (Some "specific-interest") (Some tag) c `sublist_of` c
  ∧ (∀ targetAudience interest d,
       d ∈ selectSubscribers targetAudience interest c →
       d ∈ c ∧ Newsletter.isActive d = true).
Proof.
  intros Htag. split; [| split].
  - intros d. unfold selectSubscribers.
    rewrite (interestEnum_truthy tag Htag), bool_decide_eq_true_2 by done.
    apply getSubscribersByInterest_spec.
  - apply selectSubscribers_sublist.
  - intros targetAudience interest d. unfold selectSubscribers.
    destruct interest as [tag' |]; [destruct (_ && _) |];
      rewrite ?getSubscribersByInterest_spec, ?getActiveSubscribers_active;
      tauto.
Qed.

End Audience.

Section Broadcast.

Context `{MailTransport} `{MailTemplates}.

Import EmailService AdminRoutes Http.

Lemma collect_failed (checks : list (string * bool)) field :
  (field, false) ∈ checks → field ∈ Validator.collect checks.
Proof.
  intros Hin. unfold Validator.collect. apply list_elem_of_fmap.
  exists (field, false). split; [done |]. by apply list_elem_of_filter.
Qed.

(** C2, as amended: a tag outside the vocabulary is refused with 400
    "Validation failed", the [interest] field among the errors, and
    nothing is done; but [specific-interest] without a tag is not refused:
    its audience is every active subscriber, and the request is served
    exactly as the same request for [active] is. *)
Theorem sendNewsletterRoute_target_validation req now w :
  (∀ tag,
     interest req = Some tag → tag ∉ Newsletter.interestEnum →
     ∃ errors,
       "interest" ∈ errors
       ∧ sendNewsletterRoute req now w = (Normal (validationFailed errors), w))
  ∧ (targetAudience req = Some "specific-interest" → interest req = None →
     selectSubscribers (targetAudience req) (interest req) (store w)
       = Newsletter.getActiveSubscribers (store w)
     ∧ sendNewsletterRoute req now w
         = sendNewsletterRoute
             {| subject := subject req; content := content req;
                targetAudience := Some "active"; interest := None |}
             now w).
Proof.
  split.
  - intros tag Htag Hout. exists (Validator.collect (sendChecks req)).
    assert ("interest" ∈ Validator.collect (sendChecks req)) as Herr.
    { apply collect_failed. unfold sendChecks. rewrite Htag. simpl.
      unfold Validator.isIn. rewrite bool_decide_eq_false_2 by done.
      rewrite !elem_of_cons. auto. }
    split; [done |].
    unfold sendNewsletterRoute, tryCatch.
    rewrite bool_decide_eq_false_2; [done |].
    intros Hnil. rewrite Hnil in Herr. by apply elem_of_nil in Herr.
  - intros Htarget Hnone. split.
    + by rewrite Hnone.
    + unfold sendNewsletterRoute, sendChecks, selectSubscribers.
      cbn [subject content targetAudience interest].
      rewrite Htarget, Hnone. reflexivity.
Qed.



End Broadcast.

Section Accounting.

Context `{MailTransport} `{MailTemplates}.

Import EmailService AdminRoutes Http.

Lemma sendNewsletter_array_emails subject content subscribers w results :
  (sendNewsletter subject content subscribers w).1 = Normal (Array results) →
  email <$> results = Newsletter.email <$> subscribers.
Proof.
  destruct (createTransport (smtp w)) as [e |] eqn:E.
  - by rewrite (sendNewsletter_broken _ _ _ _ e).
  - rewrite sendNewsletter_working by done. intros [= <-].
    apply outcome_emails. by rewrite replies_length, length_fmap.
Qed.


Lemma plusOne_le x : x ≤ Js.plusOne x.
Proof.
  unfold Js.plusOne.
  destruct (Z.abs (x + 1) <=? 2 ^ 53); [lia |].
  destruct (Z.abs x <? 2 ^ 54); [| lia].
  destruct (Z.even (x / 2)); lia.
Qed.



End Accounting.

(** ** The lifecycle of a subscriber *)

Section Subscription.

Context `{EmailChecks} `{MailTransport} `{MailTemplates}.

Import NewsletterRoutes Http.

Lemma collect_nil (checks : list (string * bool)) :
  Validator.collect checks = [] →
  ∀ field b, (field, b) ∈ checks → b = true.
Proof.
  unfold Validator.collect. intros Hnil field [|] Hin; [done |].
  apply fmap_nil_inv in Hnil.
  assert ((field, false) ∈ filter (λ c : string * bool, c.2 = false) checks)
    as Hf by (by apply list_elem_of_filter).
  rewrite Hnil in Hf. by apply elem_of_nil in Hf.
Qed.

Lemma isLength_truthy min max s :
  (0 < min)%N → Validator.isLength min max s = true →
  Js.truthyString (Some s) = true.
Proof.
  unfold Validator.isLength. destruct s; [| done].
  change (Js.characters EmptyString) with (@nil string).
  rewrite filter_nil. cbn [List.length N.of_nat].
  intros Hmin [Hle _]%andb_prop. apply N.leb_le in Hle. lia.
Qed.

(** After validation, [name || existing.name] is the new name when one
    was sent. *)
Lemma valid_name req (existing : option string) :
  Validator.collect (subscribeChecks req) = [] →
  Js.orString (Validator.trim <$> name req) existing
    = match name req with
      | Some n => Some (Validator.trim n)
      | None => existing
      end.
Proof.
  intros Hvalid. destruct (name req) as [n |] eqn:En; [| done].
  unfold Js.orString. cbn [fmap option_fmap option_map].
  rewrite (isLength_truthy 2 100); [done | done |].
  apply (collect_nil _ Hvalid "name"). unfold subscribeChecks.
  rewrite En. cbn [Validator.optional]. rewrite !elem_of_cons. auto.
Qed.

(** The pre-save hook keeps a document the schema accepts acceptable. *)
Lemma validate_preSave d :
  Schema.validate d = true →
  Schema.validate (Newsletter.preSave true d) = true.
Proof.
  unfold Newsletter.preSave. destruct (_ && _); [| done].
  unfold Schema.validate. cbn.
  rewrite !andb_true_iff. intros [[[[[[? ?] ?] _] ?] ?] ?].
  by repeat split.
Qed.

(** The document a reactivation hands to [save()] is one the schema
    accepts when the document it found is one, and the name of the
    request, which [isLength] has held to a hundred characters, is within
    the hundred code units of the schema. *)
Lemma reactivation_accepted req now d :
  Validator.collect (subscribeChecks req) = [] →
  Schema.validate d = true →
  Validator.optional (λ n, Nat.leb (Js.length n) 100)
    (Validator.trim <$> name req) = true →
  Schema.validate
    (Newsletter.setSubscriptionDate now
       (Newsletter.setInterests
          (Js.orArray (interests req) (Newsletter.interests d))
          (Newsletter.setName
             (Js.orString (Validator.trim <$> name req) (Newsletter.name d))
             (Newsletter.setIsActive true d)))) = true.
Proof.
  intros Hvalid Haccepted Hfits. revert Haccepted.
  unfold Schema.validate. cbn.
  rewrite (valid_name req) by done.
  rewrite !andb_true_iff. intros [[[[[[? ?] Hname] Hinterests] ?] ?] ?].
  repeat split; try done.
  - by destruct (name req) as [n |].
  - destruct (interests req) as [l |] eqn:El; [| done]. cbn.
    apply (collect_nil _ Hvalid "interests.*"). unfold subscribeChecks.
    rewrite El. cbn [Validator.optional]. rewrite !elem_of_cons. auto 10.
Qed.

(** What a subscribe answers and leaves in the collection, read off the
    collection it finds: the transport has no say in either. *)
Lemma subscribe_summary req now w :
  ((subscribe req now w).1, store (subscribe req now w).2) =
    let errors := Validator.collect (subscribeChecks req) in
    let email := normalizeEmail (email req) in
    let name := Validator.trim <$> name req in
    if negb (bool_decide (errors = []))
    then (Normal (validationFailed errors), store w)
    else
      match Newsletter.findOne email (store w) with
      | Some (i, d) =>
          if Newsletter.isActive d
          then (Normal (json 400 false
                          "This email is already subscribed to our newsletter"
                          None), store w)
          else
            let d' :=
              Newsletter.setSubscriptionDate now
                (Newsletter.setInterests
                   (Js.orArray (interests req) (Newsletter.interests d))
                   (Newsletter.setName
                      (Js.orString name (Newsletter.name d))
                      (Newsletter.setIsActive true d))) in
            if Schema.validate d'
            then
              (Normal (json 200 true "Subscription reactivated successfully!"
                         (Some (Subscription (Newsletter.email d')
                                  (Newsletter.name d')
                                  (Newsletter.interests d') None))),
               <[i := d']> (store w))
            else
              (Normal (json 500 false
                         "Server error. Please try again later." None),
               store w)
      | None =>
          match Schema.saveNew
                  (Newsletter.create email name
                     (Js.orArray (interests req) ["all"])
                     (ip req) (userAgent req) now) (store w) with
          | inl _ =>
              (Normal (json 500 false
                         "Server error. Please try again later." None),
               store w)
          | inr (d', c) =>
              (Normal (json 201 true "Successfully subscribed to newsletter!"
                         (Some (Subscription (Newsletter.email d')
                                  (Newsletter.name d')
                                  (Newsletter.interests d')
                                  (Some (Newsletter.subscriptionDate d'))))),
               c)
          end
      end.
Proof.
  cbn zeta.
  unfold subscribe, tryCatch, bind, getStore, saveExisting, saveNew,
    Schema.saveExisting.
  destruct (negb _); [done |]. simpl.
  destruct (Newsletter.findOne _ _) as [[i d] |].
  - destruct (Newsletter.isActive d); [done |].
    destruct (Schema.validate _); [| done]. cbn [negb].
    match goal with
    | |- context [EmailService.sendNewsletterConfirmation ?e ?n ?w'] =>
        destruct (sendNewsletterConfirmation_spec e n w')
          as (s & t & o & ->)
    end.
    reflexivity.
  - destruct (Schema.saveNew _ _) as [e | [d' c]]; [done |].
    match goal with
    | |- context [EmailService.sendNewsletterConfirmation ?e ?n ?w'] =>
        destruct (sendNewsletterConfirmation_spec e n w')
          as (s & t & o & ->)
    end.
    reflexivity.
Qed.



(** An unsubscribe for something [isEmail] accepts, run to its end. *)
Lemma unsubscribe_run email w :
  isEmail email = true →
  unsubscribe email w =
    match Newsletter.findOne (normalizeEmail email) (store w) with
    | None =>
        (Normal (json 404 false "Email not found in our newsletter list"
                   None), w)
    | Some (i, d) =>
        if Newsletter.isActive d
        then
          if Schema.validate d
          then
            (Normal (json 200 true
                       "Successfully unsubscribed from newsletter" None),
             {| store := <[i := Newsletter.setIsActive false d]> (store w);
                smtp := smtp w;
                outbox := outbox w |})
          else
            (Normal (json 500 false
                       "Server error. Please try again later." None), w)
        else (Normal (json 200 true "You have already been unsubscribed"
                        None), w)
    end.
Proof.
  intros Hvalid.
  unfold unsubscribe, tryCatch, bind, getStore, saveExisting,
    Schema.saveExisting.
  rewrite Hvalid. simpl.
  destruct (Newsletter.findOne _ _) as [[i d] |]; [| done].
  destruct (Newsletter.isActive d); [| done]. cbn [negb].
  change (Schema.validate (Newsletter.setIsActive false d))
    with (Schema.validate d).
  by destruct (Schema.validate d).
Qed.

Lemma findOne_insert e c i d d' :
  Newsletter.findOne e c = Some (i, d) →
  Newsletter.email d' = e →
  Newsletter.findOne e (<[i := d']> c) = Some (i, d').
Proof.
  unfold Newsletter.findOne. intros (Hi & He & Hfirst)%list_find_Some Hd'.
  apply list_find_Some. split; [| split; [done |]].
  - apply list_lookup_insert_eq. by eapply lookup_lt_Some.
  - intros j y Hj Hlt. rewrite list_lookup_insert_ne in Hj by lia.
    by eapply Hfirst.
Qed.

(** C7: an unsubscribe for something [isEmail] accepts answers 404 when,
    and only when, the collection has no document for the address, and
    then changes nothing; when the document is inactive it answers 200
    "already unsubscribed" and changes nothing; when the document is
    active and is one the schema accepts, it answers 200 and only sets
    [isActive] to false on that document, after which a second
    unsubscribe finds it inactive and again changes nothing.  An active
    document that the schema refuses, which no route can have stored,
    makes [save()] throw: the answer is 500 and nothing has changed. *)
Theorem unsubscribe_outcomes email w :
  isEmail email = true →
  let found := Newsletter.findOne (normalizeEmail email) (store w) in
  let notFound :=
    json 404 false "Email not found in our newsletter list" None in
  let already := json 200 true "You have already been unsubscribed" None in
  let confirmed :=
    json 200 true "Successfully unsubscribed from newsletter" None in
  ((unsubscribe email w).1 = Normal notFound ↔ found = None)
  ∧ (found = None → (unsubscribe email w).2 = w)
  ∧ (∀ i d, found = Some (i, d) → Newsletter.isActive d = false →
       unsubscribe email w = (Normal already, w))
  ∧ (∀ i d, found = Some (i, d) → Newsletter.isActive d = true →
       Schema.validate d = true →
       let w' := (unsubscribe email w).2 in
       (unsubscribe email w).1 = Normal confirmed
       ∧ store w' = <[i := Newsletter.setIsActive false d]> (store w)
       ∧ smtp w' = smtp w ∧ outbox w' = outbox w
       ∧ unsubscribe email w' = (Normal already, w'))
  ∧ (∀ i d, found = Some (i, d) → Newsletter.isActive d = true →
       Schema.validate d = false →
       unsubscribe email w
         = (Normal (json 500 false "Server error. Please try again later."
                      None), w)).
Proof.
  intros Hvalid found notFound already confirmed. subst found.
  rewrite (unsubscribe_run email w Hvalid).
  split; [| split; [| split; [| split]]].
  - destruct (Newsletter.findOne _ _) as [[i d] |]; [| done].
    destruct (Newsletter.isActive d); [| done].
    by destruct (Schema.validate d).
  - by intros ->.
  - by intros i d -> ->.
  - intros i d Hfind Hactive Haccepted.
    rewrite Hfind, Hactive, Haccepted. cbn zeta.
    cbn [fst snd store smtp outbox]. repeat split.
    rewrite (unsubscribe_run _ _ Hvalid). cbn [store].
    rewrite (findOne_insert _ _ _ _ _ Hfind); [done |].
    by apply list_find_Some in Hfind as (_ & ? & _).
  - by intros i d -> -> ->.
Qed.

Lemma findOne_None_fresh e (c : list Newsletter.t) :
  Newsletter.findOne e c = None → e ∉ Newsletter.email <$> c.
Proof.
  unfold Newsletter.findOne. intros Hnone%list_find_None Hin.
  apply list_elem_of_fmap in Hin as (d & -> & Hd).
  by apply (proj1 (Forall_forall _ _) Hnone d Hd).
Qed.

(** [save()] of a valid new document whose address is not in the
    collection appends it, after the pre-save hook. *)
Lemma saveNew_fresh d c :
  Schema.validate d = true →
  Newsletter.findOne (Newsletter.email d) c = None →
  Schema.saveNew d c
    = inr (Newsletter.preSave true d, c ++ [Newsletter.preSave true d]).
Proof.
  intros Hvalid Hfresh%findOne_None_fresh. unfold Schema.saveNew.
  rewrite Hvalid. cbn [negb].
  assert (Newsletter.email (Newsletter.preSave true d) = Newsletter.email d)
    as Hemail by (unfold Newsletter.preSave; by destruct (_ && _)).
  rewrite Hemail, bool_decide_eq_false_2 by done. reflexivity.
Qed.

End Subscription.

(** C8: whatever the mail transport is and does with the welcome message,
    delivering it, refusing it, or failing to be built, a subscribe comes
    to the same end.  A valid first subscription that the schema accepts
    is answered 201 with the new document, which is then the last of the
    collection; a valid reactivation that the schema accepts is answered
    200 with the reactivated document, which is then in the collection in
    the place of the old one.  And in every case, two runs from the same
    collection, over any two transports in any two states, answer alike
    and leave the same collection. *)
Theorem subscribe_ignores_confirmation `{EmailChecks} `{MailTemplates}
    (T1 T2 : MailTransport) req now (w1 : @World T1) (w2 : @World T2) :
  store w1 = store w2 →
  let address := normalizeEmail (NewsletterRoutes.email req) in
  let name := Validator.trim <$> NewsletterRoutes.name req in
  let fresh :=
    Newsletter.create address name
      (Js.orArray (NewsletterRoutes.interests req) ["all"])
      (NewsletterRoutes.ip req) (NewsletterRoutes.userAgent req) now in
  ((NewsletterRoutes.subscribe req now w1).1
     = (NewsletterRoutes.subscribe req now w2).1
   ∧ store (NewsletterRoutes.subscribe req now w1).2
     = store (NewsletterRoutes.subscribe req now w2).2)
  ∧ (Validator.collect (NewsletterRoutes.subscribeChecks req) = [] →
     Newsletter.findOne address (store w1) = None →
     Schema.validate fresh = true →
     let d := Newsletter.preSave true fresh in
     (NewsletterRoutes.subscribe req now w1).1
       = Normal (Http.json 201 true "Successfully subscribed to newsletter!"
                   (Some (Http.Subscription (Newsletter.email d)
                            (Newsletter.name d) (Newsletter.interests d)
                            (Some (Newsletter.subscriptionDate d)))))
     ∧ store (NewsletterRoutes.subscribe req now w1).2 = store w1 ++ [d])
  ∧ (∀ i d,
       Validator.collect (NewsletterRoutes.subscribeChecks req) = [] →
       Newsletter.findOne address (store w1) = Some (i, d) →
       Newsletter.isActive d = false →
       let d' :=
         Newsletter.setSubscriptionDate now
           (Newsletter.setInterests
              (Js.orArray (NewsletterRoutes.interests req)
                 (Newsletter.interests d))
              (Newsletter.setName (Js.orString name (Newsletter.name d))
                 (Newsletter.setIsActive true d))) in
       Schema.validate d' = true →
       (NewsletterRoutes.subscribe req now w1).1
         = Normal (Http.json 200 true "Subscription reactivated successfully!"
                     (Some (Http.Subscription (Newsletter.email d')
                              (Newsletter.name d') (Newsletter.interests d')
                              None)))
       ∧ store (NewsletterRoutes.subscribe req now w1).2
           = <[i := d']> (store w1)).
Proof.
  intros Hstore address name fresh.
  pose proof (subscribe_summary req now w1) as H1.
  pose proof (subscribe_summary req now w2) as H2.
  split; [| split].
  - rewrite Hstore, <- H2 in H1. by simplify_eq.
  - intros Hvalid Hfind Haccepted d. cbn zeta in H1.
    rewrite Hvalid in H1. cbn [bool_decide decide_rel negb] in H1.
    fold address name in H1. rewrite Hfind in H1. fold fresh in H1.
    rewrite (saveNew_fresh fresh) in H1 by done.
    fold d in H1. by apply pair_equal_spec in H1.
  - intros i d Hvalid Hfind Hinactive d' Haccepted. cbn zeta in H1.
    rewrite Hvalid in H1. cbn [bool_decide decide_rel negb] in H1.
    fold address name in H1. rewrite Hfind, Hinactive in H1.
    fold d' in H1. rewrite Haccepted in H1.
    by apply pair_equal_spec in H1.
Qed.

Section Invariant.

Context `{EmailChecks} `{MailTransport} `{MailTemplates}.

Import Lifecycle Http.

Lemma unsubscribe_rejected email w :
  isEmail email = false →
  NewsletterRoutes.unsubscribe email w
    = (Normal (validationFailed ["email"]), w).
Proof.
  intros Hbad. unfold NewsletterRoutes.unsubscribe, tryCatch.
  by rewrite Hbad.
Qed.

(** The collection after a broadcast: as before, or with the deliveries
    of some outcomes counted. *)
Lemma sendNewsletterRoute_store_cases req now w :
  store (AdminRoutes.sendNewsletterRoute req now w).2 = store w
  ∨ ∃ ok, store (AdminRoutes.sendNewsletterRoute req now w).2
          = AdminRoutes.recordDeliveries now ok (store w).
Proof.
  remember (store (AdminRoutes.sendNewsletterRoute req now w).2) as c' eqn:Hc'.
  unfold AdminRoutes.sendNewsletterRoute, tryCatch in Hc'.
  destruct (negb _); [by left |]. unfold bind at 1 in Hc'. simpl in Hc'.
  destruct (Nat.eqb _ 0); [by left |]. unfold bind at 1 in Hc'.
  destruct (createTransport (smtp w)) as [e |] eqn:E.
  - rewrite (sendNewsletter_broken _ _ _ _ e) in Hc' by done. by left.
  - rewrite sendNewsletter_working in Hc' by done. right.
    eexists. exact Hc'.
Qed.

Lemma preSave_new_interests d :
  Newsletter.interests (Newsletter.preSave true d) ≠ [].
Proof.
  unfold Newsletter.preSave.
  destruct (Newsletter.interests d) eqn:E; simpl; [done |].
  by rewrite E.
Qed.

(** One request keeps the interests non-empty, unless it is a
    reactivation that carries an empty array. *)
Lemma step_interestsNonEmpty w op :
  interestsNonEmpty (store w) →
  reactivatesWithNoInterests w op = false →
  interestsNonEmpty (store (step w op)).
Proof.
  unfold interestsNonEmpty. intros Hinv Hsafe.
  destruct op as [req now | email | req now]; cbn [step].
  - pose proof (f_equal snd (subscribe_summary req now w)) as Hs.
    cbn [snd] in Hs. rewrite Hs. clear Hs. cbn zeta.
    cbn [reactivatesWithNoInterests] in Hsafe.
    destruct (negb _); [done |].
    destruct (Newsletter.findOne _ _) as [[i d] |] eqn:Hfind.
    + destruct (Newsletter.isActive d) eqn:Hactive; [done |].
      destruct (Schema.validate _); [| done]. cbn [snd].
      apply Forall_insert; [done |]. cbn.
      apply list_find_Some in Hfind as (Hi%list_elem_of_lookup_2 & _ & _).
      destruct (NewsletterRoutes.interests req) as [[| x l] |]; try done.
      cbn. eapply (proj1 (Forall_forall _ _) Hinv). exact Hi.
    + unfold Schema.saveNew.
      destruct (negb (Schema.validate _)); [done |].
      destruct (bool_decide (_ ∈ _)); [done |]. cbn [snd].
      apply Forall_app. split; [done |].
      apply Forall_singleton, preSave_new_interests.
  - destruct (isEmail email) eqn:Hvalid.
    + rewrite unsubscribe_run by done.
      destruct (Newsletter.findOne _ _) as [[i d] |] eqn:Hfind; [| done].
      destruct (Newsletter.isActive d); [| done].
      destruct (Schema.validate d); [| done]. cbn [snd store].
      apply Forall_insert; [done |]. cbn.
      apply list_find_Some in Hfind as (Hi%list_elem_of_lookup_2 & _ & _).
      eapply (proj1 (Forall_forall _ _) Hinv). exact Hi.
    + by rewrite unsubscribe_rejected.
  - destruct (sendNewsletterRoute_store_cases req now w) as [-> | [ok ->]];
      [done |].
    unfold AdminRoutes.recordDeliveries, Newsletter.updateMany.
    apply Forall_fmap. eapply Forall_impl; [exact Hinv |].
    intros d Hd. cbn. by destruct (bool_decide _).
Qed.

(** Every other path keeps the interests: over any sequence of subscribe,
    unsubscribe and broadcast requests in which no subscribe reactivates a
    document with an empty [interests] array, starting from a collection
    where every document has some interest, every document has some
    interest at the end; a new subscription with an empty array is among
    the requests allowed, its interests becoming ['all']. *)
Theorem interests_stay_non_empty ops : ∀ w,
  interestsNonEmpty (store w) →
  neverReactivatesWithNoInterests ops w →
  interestsNonEmpty (store (run ops w)).
Proof.
  induction ops as [| op ops IH]; intros w Hinv Hsafe; [done |].
  destruct Hsafe as [Hop Hrest]. unfold run. cbn [foldl].
  apply IH; [| done]. by apply step_interestsNonEmpty.
Qed.

End Invariant.

(** * The properties on concrete runs *)

Section Runs.

Import Fixture.

(** The schema's pattern is stricter than a four-letter top-level
    domain. *)
Example emailValidator_accepts :
  Schema.emailValidator "ann.lee@x-mail.co.ke" = true.
Proof. vm_compute. reflexivity. Qed.

Example emailValidator_rejects : Schema.emailValidator "a@b.info" = false.
Proof. vm_compute. reflexivity. Qed.

Example trim_both_ends : Validator.trim "  Ann Lee  " = "Ann Lee".
Proof. vm_compute. reflexivity. Qed.

(** Three recipients, the second refused: three outcomes in order, and
    the counters of the first and the third move. *)
Example three_recipients_second_refused :
  let w := world [ann; bob; cat] refusesSecond in
  (EmailService.sendNewsletter "Monthly news" "Courses start in May." [ann; bob; cat] w).1
    = Normal (EmailService.Array
        [ {| EmailService.email := "a@x.com"; EmailService.status := EmailService.sent "<m1>" |};
          {| EmailService.email := "b@x.com";
             EmailService.status := EmailService.failed {| Js.message := "550 mailbox unavailable" |} |};
          {| EmailService.email := "c@x.com"; EmailService.status := EmailService.sent "<m3>" |} ])
  ∧ Newsletter.emailCount
      <$> store (AdminRoutes.sendNewsletterRoute (broadcast None None) 7 w).2
    = [1; 0; 1].
Proof. vm_compute. done. Qed.

(** The loop on three recipients, the second refused. *)
Lemma sendNewsletter_one_outcome_per_recipient_witness :
  let w := world [] refusesSecond in
  createTransport (smtp w) = None
  ∧ ∃ results,
      (EmailService.sendNewsletter "Monthly news" "Courses start in May."
         [ann; bob; cat] w).1 = Normal (EmailService.Array results)
      ∧ EmailService.email <$> results = ["a@x.com"; "b@x.com"; "c@x.com"]
      ∧ to <$> outbox (EmailService.sendNewsletter "Monthly news" "Courses start in May."
                         [ann; bob; cat] w).2
          = ["a@x.com"; "b@x.com"; "c@x.com"].
Proof.
  intros w. split; [reflexivity |].
  destruct (sendNewsletter_one_outcome_per_recipient
              "Monthly news" "Courses start in May." [ann; bob; cat] w
              eq_refl) as (results & Hres & Hemails & Hout & _).
  exists results. split; [exact Hres |]. split; [exact Hemails |].
  rewrite Hout. reflexivity.
Defined.

(** C1: the service as it runs.  [createTransporter()] calls
    [nodemailer.createTransporter], which nodemailer does not have, so for
    three recipients [sendNewsletter] attempts no delivery at all and
    returns, not an array of three outcomes, but the object of its outer
    catch. *)
Lemma sendNewsletter_unbuildable_returns_object :
  let w := world [] unbuildable in
  EmailService.sendNewsletter "Monthly news" "Courses start in May."
    [ann; bob; cat] w
    = (Normal (EmailService.Object
         {| EmailService.success := false; EmailService.messageId := None;
            EmailService.error := Some "nodemailer.createTransporter is not a function" |}),
       w)
  ∧ outbox (EmailService.sendNewsletter "Monthly news"
              "Courses start in May." [ann; bob; cat] w).2 = []
  ∧ ¬ ∃ results,
        (EmailService.sendNewsletter "Monthly news" "Courses start in May."
           [ann; bob; cat] w).1
          = Normal (EmailService.Array results).
Proof.
  split; [reflexivity |]. split; [reflexivity |]. by intros [results Hres].
Qed.

(** The loop on no recipient. *)
Lemma sendNewsletter_nobody_witness :
  let w := world [ann] working in
  createTransport (smtp w) = None
  ∧ EmailService.sendNewsletter "Monthly news" "Courses start in May." [] w
      = (Normal (EmailService.Array []), w).
Proof.
  intros w. split; [reflexivity |].
  destruct (sendNewsletter_nobody "Monthly news" "Courses start in May." w)
    as [Hworld Hresult].
  apply injective_projections; [exact (Hresult eq_refl) | exact Hworld].
Defined.

(** C9: the service as it runs.  With no recipient, nothing is handed to
    the transport, but what comes back is not the empty array: the call to
    [nodemailer.createTransporter] has thrown, and the outer catch returns
    its object. *)
Lemma sendNewsletter_nobody_unbuildable :
  let w := world [ann] unbuildable in
  (EmailService.sendNewsletter "Monthly news" "Courses start in May." [] w).1
    = Normal (EmailService.Object
        {| EmailService.success := false; EmailService.messageId := None;
           EmailService.error := Some "nodemailer.createTransporter is not a function" |})
  ∧ (EmailService.sendNewsletter "Monthly news" "Courses start in May." [] w).1
    ≠ Normal (EmailService.Array [])
  ∧ outbox (EmailService.sendNewsletter "Monthly news"
              "Courses start in May." [] w).2 = [].
Proof. split; [reflexivity |]. split; [done | reflexivity]. Qed.

(** Witness of C10. *)
Lemma sendNewsletterRoute_broken_transport_witness :
  let w := world [ann; dan] unbuildable in
  let req := broadcast (Some "all") None in
  Validator.collect (AdminRoutes.sendChecks req) = []
  ∧ AdminRoutes.selectSubscribers (AdminRoutes.targetAudience req) (AdminRoutes.interest req) (store w) = [ann]
  ∧ AdminRoutes.sendNewsletterRoute req 7 w
      = (Normal (Http.json 500 false "Server error" None), w).
Proof.
  intros w req. split; [reflexivity |]. split; [reflexivity |].
  refine (proj2 (sendNewsletterRoute_broken_transport req 7 w
                   {| Js.message :=
                        "nodemailer.createTransporter is not a function" |}
                   eq_refl eq_refl _)).
  discriminate.
Defined.

(** Witness of C2. *)
Lemma sendNewsletterRoute_target_validation_witness :
  let w := world [ann; dan] working in
  let req := broadcast (Some "specific-interest") (Some "cooking") in
  let req' := broadcast (Some "specific-interest") None in
  ("cooking" ∉ Newsletter.interestEnum)
  ∧ (∃ errors,
       "interest" ∈ errors
       ∧ AdminRoutes.sendNewsletterRoute req 7 w
           = (Normal (Http.validationFailed errors), w))
  ∧ AdminRoutes.sendNewsletterRoute req' 7 w
      = AdminRoutes.sendNewsletterRoute (broadcast (Some "active") None) 7 w.
Proof.
  intros w req req'.
  assert ("cooking" ∉ Newsletter.interestEnum) as Hout.
  { unfold Newsletter.interestEnum. rewrite !elem_of_cons, elem_of_nil.
    intros Hin. destruct_or!; discriminate. }
  split; [exact Hout |]. split.
  - exact (proj1 (sendNewsletterRoute_target_validation req 7 w)
             "cooking" eq_refl Hout).
  - exact (proj2 (proj2 (sendNewsletterRoute_target_validation req' 7 w)
                    eq_refl eq_refl)).
Defined.

(** Counterexample to C2 as stated: a valid request for
    [specific-interest] that carries no tag is not refused; it is served
    with every active subscriber as its audience, here one whose only
    interest is web development. *)
Lemma specific_interest_without_tag_is_served :
  let w := world [ann; dan] working in
  let req := broadcast (Some "specific-interest") None in
  AdminRoutes.selectSubscribers (AdminRoutes.targetAudience req)
    (AdminRoutes.interest req) (store w) = [ann]
  ∧ (AdminRoutes.sendNewsletterRoute req 7 w).1
      = Normal (Http.json 200 true "Newsletter sent to 1 subscribers"
                  (Some (Http.SendSummary 1 1 0)))
  ∧ to <$> outbox (AdminRoutes.sendNewsletterRoute req 7 w).2 = ["a@x.com"].
Proof. vm_compute. done. Qed.

(** A new subscription with an empty array, an unsubscribe, a
    reactivation that names no interests, a broadcast: the interests
    stay. *)
Lemma interests_stay_non_empty_witness :
  let w := world [] working in
  let ops :=
    [ Lifecycle.Subscribe subscribeAnnNoInterests 1;
      Lifecycle.Unsubscribe "a@x.com";
      Lifecycle.Subscribe subscribeAnnAgain 9;
      Lifecycle.Broadcast (broadcast None None) 12 ] in
  Lifecycle.interestsNonEmpty (store w)
  ∧ Lifecycle.neverReactivatesWithNoInterests ops w
  ∧ Lifecycle.interestsNonEmpty (store (Lifecycle.run ops w))
  ∧ Newsletter.interests <$> store (Lifecycle.run ops w) = [["all"]].
Proof.
  intros w ops.
  assert (Lifecycle.interestsNonEmpty (store w)) as Hinv
    by apply Forall_nil_2.
  assert (Lifecycle.neverReactivatesWithNoInterests ops w) as Hsafe
    by (vm_compute; tauto).
  split; [exact Hinv |]. split; [exact Hsafe |].
  split; [| reflexivity].
  exact (interests_stay_non_empty ops w Hinv Hsafe).
Defined.

(** C3: subscribe, unsubscribe, then subscribe again with an empty array
    of interests.  Validation accepts the array, and the reactivation
    stores it as it is, an array being truthy for [interests ||
    existingSubscriber.interests]: the document ends active with no
    interest at all.  The same array on a first subscription is replaced
    by ['all'], by the pre-save hook. *)
Lemma reactivation_with_empty_interests :
  let w := world [] unbuildable in
  let ops :=
    [ Lifecycle.Subscribe subscribeAnn 5;
      Lifecycle.Unsubscribe "a@x.com";
      Lifecycle.Subscribe subscribeAnnNoInterests 9 ] in
  Validator.collect (NewsletterRoutes.subscribeChecks subscribeAnnNoInterests)
    = []
  ∧ Lifecycle.interestsNonEmpty (store w)
  ∧ Lifecycle.answer (Lifecycle.run (take 2 ops) w)
      (Lifecycle.Subscribe subscribeAnnNoInterests 9)
    = Normal (Http.json 200 true "Subscription reactivated successfully!"
                (Some (Http.Subscription "a@x.com" (Some "Ann") [] None)))
  ∧ ((λ d, (Newsletter.email d, Newsletter.isActive d,
              Newsletter.interests d))
       <$> store (Lifecycle.run ops w))
    = [ ("a@x.com", true, []) ]
  ∧ ¬ Lifecycle.interestsNonEmpty (store (Lifecycle.run ops w))
  ∧ Newsletter.interests
      <$> store (Lifecycle.run
                   [Lifecycle.Subscribe subscribeAnnNoInterests 9] w)
    = [ ["all"] ].
Proof.
  intros w ops. split; [reflexivity |]. split; [apply Forall_nil_2 |].
  split; [reflexivity |]. split; [reflexivity |]. split; [| reflexivity].
  intros Hinv. vm_compute in Hinv.
  apply Forall_cons_1 in Hinv as [Hann _]. by apply Hann.
Qed.

(** Witness of C4. *)
Lemma selectSubscribers_specific_interest_witness :
  let c := [ann; bob; cat; dan] in
  ("cyber-security" ∈ Newsletter.interestEnum)
  ∧ (cat ∈ AdminRoutes.selectSubscribers (Some "specific-interest")
             (Some "cyber-security") c)
  ∧ (bob ∈ AdminRoutes.selectSubscribers (Some "specific-interest")
             (Some "cyber-security") c)
  ∧ (dan ∈ AdminRoutes.selectSubscribers (Some "specific-interest")
             (Some "cyber-security") c →
     Newsletter.isActive dan = true).
Proof.
  intros c.
  assert ("cyber-security" ∈ Newsletter.interestEnum) as Htag
    by (unfold Newsletter.interestEnum; rewrite !elem_of_cons; tauto).
  destruct (selectSubscribers_specific_interest "cyber-security" c Htag)
    as (Hexact & _ & Hactive).
  split; [exact Htag |]. split; [| split].
  - apply Hexact. apply (bool_decide_unpack _). reflexivity.
  - apply Hexact. apply (bool_decide_unpack _). reflexivity.
  - intros Hdan. exact (proj2 (Hactive _ _ _ Hdan)).
Defined.





(** Witness of C7: unsubscribing Ann twice. *)
Lemma unsubscribe_outcomes_witness :
  let w := world [ann] unbuildable in
  let w' := (NewsletterRoutes.unsubscribe "a@x.com" w).2 in
  isEmail "a@x.com" = true
  ∧ Schema.validate ann = true
  ∧ (NewsletterRoutes.unsubscribe "a@x.com" w).1
      = Normal (Http.json 200 true
                  "Successfully unsubscribed from newsletter" None)
  ∧ store w' = [Newsletter.setIsActive false ann]
  ∧ NewsletterRoutes.unsubscribe "a@x.com" w'
      = (Normal (Http.json 200 true "You have already been unsubscribed"
                   None), w').
Proof.
  intros w w'.
  assert (isEmail "a@x.com" = true) as Hvalid by reflexivity.
  assert (Schema.validate ann = true) as Haccepted
    by (vm_compute; reflexivity).
  split; [exact Hvalid |]. split; [exact Haccepted |].
  destruct (unsubscribe_outcomes "a@x.com" w Hvalid)
    as (_ & _ & _ & Hactive & _).
  destruct (Hactive 0%nat ann eq_refl eq_refl Haccepted)
    as (Hanswer & Hstore & _ & _ & Hagain).
  split; [exact Hanswer |]. split; [exact Hstore | exact Hagain].
Defined.

(** Witness of C8: the service as it runs, where no welcome message is
    ever sent, beside a transport that delivers it: a first subscription
    is answered 201 and stored, and a reactivation is answered 200 and
    stored. *)
Lemma subscribe_ignores_confirmation_witness :
  let inactive := subscriber "a@x.com" ["all"] false in
  let w1 := world [bob] unbuildable in
  let w2 := world [bob] working in
  let w3 := world [bob; inactive] unbuildable in
  store w1 = store w2
  ∧ (EmailService.sendNewsletterConfirmation "a@x.com" (Some "Ann") w1).1
    = Normal (EmailService.failed
                {| Js.message :=
                     "nodemailer.createTransporter is not a function" |})
  ∧ (NewsletterRoutes.subscribe subscribeAnn 5 w1).1
      = (NewsletterRoutes.subscribe subscribeAnn 5 w2).1
  ∧ (NewsletterRoutes.subscribe subscribeAnn 5 w1).1
      = Normal (Http.json 201 true "Successfully subscribed to newsletter!"
                  (Some (Http.Subscription "a@x.com" (Some "Ann")
                           ["web-development"] (Some 5))))
  ∧ Newsletter.email <$> store (NewsletterRoutes.subscribe subscribeAnn 5 w1).2
      = ["b@x.com"; "a@x.com"]
  ∧ (NewsletterRoutes.subscribe subscribeAnn 9 w3).1
      = Normal (Http.json 200 true "Subscription reactivated successfully!"
                  (Some (Http.Subscription "a@x.com" (Some "Ann")
                           ["web-development"] None)))
  ∧ Newsletter.isActive
      <$> store (NewsletterRoutes.subscribe subscribeAnn 9 w3).2
      = [true; true].
Proof.
  intros inactive w1 w2 w3.
  assert (Validator.collect (NewsletterRoutes.subscribeChecks subscribeAnn)
            = []) as Hvalid by (vm_compute; reflexivity).
  assert (Newsletter.findOne (normalizeEmail "a@x.com") (store w1) = None)
    as Hfresh by (vm_compute; reflexivity).
  assert (Newsletter.findOne (normalizeEmail "a@x.com") (store w3)
            = Some (1%nat, inactive)) as Hfind by (vm_compute; reflexivity).
  destruct (subscribe_ignores_confirmation scripted scripted subscribeAnn 5
              w1 w2 eq_refl) as ((Hanswers & _) & Hcreated & _).
  destruct (subscribe_ignores_confirmation scripted scripted subscribeAnn 9
              w3 w3 eq_refl) as (_ & _ & Hreactivated).
  destruct (Hcreated Hvalid Hfresh eq_refl) as [Hanswer Hstore].
  destruct (Hreactivated 1%nat inactive Hvalid Hfind eq_refl eq_refl)
    as [Hanswer' Hstore'].
  split; [reflexivity |]. split; [reflexivity |].
  split; [exact Hanswers |]. split; [exact Hanswer |].
  split; [rewrite Hstore; reflexivity |].
  split; [exact Hanswer' |]. rewrite Hstore'. reflexivity.
Defined.

(** The subscription is made and answered 201 although the welcome
    message is refused. *)
Example subscribe_confirmation_refused :
  let w := world [] refusesFirst in
  (NewsletterRoutes.subscribe subscribeAnn 5 w).1
    = Normal (Http.json 201 true "Successfully subscribed to newsletter!"
                (Some (Http.Subscription "a@x.com" (Some "Ann")
                         ["web-development"] (Some 5))))
  ∧ Newsletter.email <$> store (NewsletterRoutes.subscribe subscribeAnn 5 w).2
    = ["a@x.com"]
  ∧ smtp (NewsletterRoutes.subscribe subscribeAnn 5 w).2 = working.
Proof. vm_compute. done. Qed.

End Runs.

(** * Further properties *)

(** ** The single-message senders of emailService.js *)

Section Senders.

Context `{MailTransport} `{MailTemplates} `{NoticeTemplates}.

Import EmailService.

(** What [try { createTransporter(); sendMail(m); return sent } catch]
    comes to, for any message. *)
Lemma sendOnce_run (m : MailOptions) w :
  tryCatch
    (bind createTransporter (λ _, bind (sendMail m) (λ id, ret (sent id))))
    (λ error, ret (failed error)) w
  = match createTransport (smtp w) with
    | Some e => (Normal (failed e), w)
    | None =>
        (Normal match (deliver (smtp w) m).1 with
                | inl id => sent id
                | inr e => failed e
                end,
         {| store := store w;
            smtp := (deliver (smtp w) m).2;
            outbox := outbox w ++ [m] |})
    end.
Proof.
  unfold tryCatch, bind, createTransporter, sendMail, ret.
  destruct (createTransport (smtp w)); [done |].
  by destruct (deliver (smtp w) m) as [[id | e] t].
Qed.

(** X15: the welcome message.  [sendNewsletterConfirmation] never throws
    and never touches the collection.  If the transporter cannot be built
    it leaves the world as it is and reports the error; otherwise it hands
    exactly one message, addressed to the subscriber, to the transport,
    and reports success with the message id exactly when the transport
    accepted it. *)
Theorem sendNewsletterConfirmation_outcome email name w :
  let m := {| from := sender;
              to := email;
              subject := "Welcome to Cyber Cloud Kenya Newsletter!";
              html := confirmationHtml name |} in
  let r := sendNewsletterConfirmation email name w in
  store r.2 = store w
  ∧ match createTransport (smtp w) with
    | Some e => r = (Normal (failed e), w)
    | None =>
        outbox r.2 = outbox w ++ [m]
        ∧ smtp r.2 = (deliver (smtp w) m).2
        ∧ r.1 = Normal match (deliver (smtp w) m).1 with
                       | inl id => sent id
                       | inr e => failed e
                       end
    end.
Proof.
  cbn zeta. unfold sendNewsletterConfirmation. rewrite sendOnce_run.
  by destruct (createTransport (smtp w)).
Qed.

Import Notices.

Lemma adminAddress_truthy : Js.truthyString (Some adminAddress) = true.
Proof.
  unfold adminAddress. destruct adminEmail as [[| c a] |]; reflexivity.
Qed.

(** X16: the notice of a contact submission.  [sendContactNotification]
    never throws and never touches the collection; when the transporter
    can be built it hands exactly one message to the transport, whose
    recipient is [ADMIN_EMAIL] if that is set to a non-empty string and
    admin@cybercloudkenya.com otherwise, so never an empty recipient, and
    whose subject ends with the subject of the submission; it reports
    success exactly when the transport accepted the message. *)
Theorem sendContactNotification_outcome contactData now w :
  let r := sendContactNotification contactData now w in
  store r.2 = store w
  ∧ adminAddress ≠ EmptyString
  ∧ (adminAddress = "admin@cybercloudkenya.com"
     ∨ adminEmail = Some adminAddress)
  ∧ match createTransport (smtp w) with
    | Some e => r = (Normal (failed e), w)
    | None =>
        ∃ m,
          outbox r.2 = outbox w ++ [m]
          ∧ to m = adminAddress
          ∧ subject m = ("New Contact Form Submission - "
                         ++ Contact.subject contactData)%string
          ∧ r.1 = Normal match (deliver (smtp w) m).1 with
                         | inl id => sent id
                         | inr e => failed e
                         end
    end.
Proof.
  cbn zeta. unfold sendContactNotification. rewrite sendOnce_run.
  split; [by destruct (createTransport (smtp w)) |].
  split.
  { pose proof adminAddress_truthy as Ht. intros Hempty.
    by rewrite Hempty in Ht. }
  split.
  { unfold adminAddress. destruct adminEmail as [[| c a] |]; auto. }
  destruct (createTransport (smtp w)); [done |].
  eexists. by repeat split.
Qed.

(** X17: the password reset message.  [sendPasswordReset] never throws and
    never touches the collection; when the transporter can be built it
    hands exactly one message to the transport, addressed to the given
    address, and reports success exactly when the transport accepted it;
    when the transporter cannot be built nothing is sent. *)
Theorem sendPasswordReset_outcome email resetToken w :
  let m := {| from := sender;
              to := email;
              subject := "Password Reset Request";
              html := resetHtml resetToken |} in
  let r := sendPasswordReset email resetToken w in
  store r.2 = store w
  ∧ match createTransport (smtp w) with
    | Some e => r = (Normal (failed e), w)
    | None =>
        outbox r.2 = outbox w ++ [m]
        ∧ smtp r.2 = (deliver (smtp w) m).2
        ∧ r.1 = Normal match (deliver (smtp w) m).1 with
                       | inl id => sent id
                       | inr e => failed e
                       end
    end.
Proof.
  cbn zeta. unfold sendPasswordReset. rewrite sendOnce_run.
  by destruct (createTransport (smtp w)).
Qed.

End Senders.

(** ** Subscribing *)

Section Subscribing.

Context `{EmailChecks} `{MailTransport} `{MailTemplates}.

Import NewsletterRoutes Http.

(** A subscribe run to its end, branch by branch; the world it leaves is
    the one the welcome message leaves. *)
Lemma subscribe_run req now w :
  subscribe req now w =
    let errors := Validator.collect (subscribeChecks req) in
    let email := normalizeEmail (email req) in
    let name := Validator.trim <$> name req in
    if negb (bool_decide (errors = []))
    then (Normal (validationFailed errors), w)
    else
      match Newsletter.findOne email (store w) with
      | Some (i, d) =>
          if Newsletter.isActive d
          then (Normal (json 400 false
                          "This email is already subscribed to our newsletter"
                          None), w)
          else
            let d' :=
              Newsletter.setSubscriptionDate now
                (Newsletter.setInterests
                   (Js.orArray (interests req) (Newsletter.interests d))
                   (Newsletter.setName
                      (Js.orString name (Newsletter.name d))
                      (Newsletter.setIsActive true d))) in
            if Schema.validate d'
            then
              (Normal (json 200 true "Subscription reactivated successfully!"
                         (Some (Subscription (Newsletter.email d')
                                  (Newsletter.name d')
                                  (Newsletter.interests d') None))),
               (EmailService.sendNewsletterConfirmation email name
                  {| store := <[i := d']> (store w);
                     smtp := smtp w; outbox := outbox w |}).2)
            else
              (Normal (json 500 false
                         "Server error. Please try again later." None), w)
      | None =>
          match Schema.saveNew
                  (Newsletter.create email name
                     (Js.orArray (interests req) ["all"])
                     (ip req) (userAgent req) now) (store w) with
          | inl _ =>
              (Normal (json 500 false
                         "Server error. Please try again later." None), w)
          | inr (d', c) =>
              (Normal (json 201 true "Successfully subscribed to newsletter!"
                         (Some (Subscription (Newsletter.email d')
                                  (Newsletter.name d')
                                  (Newsletter.interests d')
                                  (Some (Newsletter.subscriptionDate d'))))),
               (EmailService.sendNewsletterConfirmation email name
                  {| store := c; smtp := smtp w; outbox := outbox w |}).2)
          end
      end.
Proof.
  cbn zeta.
  unfold subscribe, tryCatch, bind, getStore, saveExisting, saveNew,
    Schema.saveExisting.
  destruct (negb _); [done |]. simpl.
  destruct (Newsletter.findOne _ _) as [[i d] |].
  - destruct (Newsletter.isActive d); [done |].
    destruct (Schema.validate _); [| done]. cbn [negb].
    change (Newsletter.preSave false ?x) with x.
    match goal with
    | |- context [EmailService.sendNewsletterConfirmation ?e ?n ?w'] =>
        destruct (sendNewsletterConfirmation_spec e n w')
          as (s & t & o & ->)
    end.
    reflexivity.
  - destruct (Schema.saveNew _ _) as [e | [d' c]]; [done |].
    match goal with
    | |- context [EmailService.sendNewsletterConfirmation ?e ?n ?w'] =>
        destruct (sendNewsletterConfirmation_spec e n w')
          as (s & t & o & ->)
    end.
    reflexivity.
Qed.

(** X1: a valid subscribe for an address whose document is active is
    answered 400 "already subscribed" and changes nothing at all: the
    document keeps its name, interests and date, and no welcome message
    is sent. *)
Theorem subscribe_already_subscribed req now w i d :
  Validator.collect (subscribeChecks req) = [] →
  Newsletter.findOne (normalizeEmail (email req)) (store w) = Some (i, d) →
  Newsletter.isActive d = true →
  subscribe req now w
    = (Normal (json 400 false
                 "This email is already subscribed to our newsletter" None),
       w).
Proof.
  intros Hvalid Hfind Hactive. rewrite subscribe_run. cbn zeta.
  by rewrite Hvalid, Hfind, Hactive.
Qed.

(** X2: a valid subscribe for an address that has no document, building a
    document the schema accepts, is answered 201 and appends exactly one
    document, after all the others: active, dated now, never mailed, with
    the trimmed name of the request and with the interests of the request,
    or ['all'] when the request has none or an empty array. *)
Theorem subscribe_creates req now w :
  let address := normalizeEmail (email req) in
  Validator.collect (subscribeChecks req) = [] →
  Newsletter.findOne address (store w) = None →
  Schema.validate
    (Newsletter.create address (Validator.trim <$> name req)
       (Js.orArray (interests req) ["all"]) (ip req) (userAgent req) now)
    = true →
  ∃ d,
    store (subscribe req now w).2 = store w ++ [d]
    ∧ (subscribe req now w).1
        = Normal (json 201 true "Successfully subscribed to newsletter!"
                    (Some (Subscription address (Newsletter.name d)
                             (Newsletter.interests d) (Some now))))
    ∧ Newsletter.email d = address
    ∧ Newsletter.isActive d = true
    ∧ Newsletter.subscriptionDate d = now
    ∧ Newsletter.emailCount d = 0
    ∧ Newsletter.lastEmailSent d = None
    ∧ Newsletter.name d = Validator.trim <$> name req
    ∧ Newsletter.interests d
        = match interests req with
          | Some (tag :: tags) => tag :: tags
          | _ => ["all"]
          end.
Proof.
  intros address Hvalid Hfind Hschema. rewrite subscribe_run. cbn zeta.
  rewrite Hvalid. cbn [bool_decide decide_rel negb]. simpl.
  fold address. rewrite Hfind.
  rewrite saveNew_fresh by done.
  match goal with
  | |- context [EmailService.sendNewsletterConfirmation ?e ?n ?w'] =>
      destruct (sendNewsletterConfirmation_spec e n w')
        as (s & t & o & ->)
  end.
  eexists. split; [reflexivity |].
  unfold Newsletter.preSave, Js.orArray.
  destruct (interests req) as [[| tag tags] |]; simpl; by repeat split.
Qed.

(** X3: a valid subscribe for an address that has no document and that
    the pattern of the schema refuses is answered 500; nothing is stored
    and no welcome message is sent. *)
Theorem subscribe_schema_refusal req now w :
  Validator.collect (subscribeChecks req) = [] →
  Newsletter.findOne (normalizeEmail (email req)) (store w) = None →
  Schema.emailValidator (normalizeEmail (email req)) = false →
  subscribe req now w
    = (Normal (json 500 false "Server error. Please try again later." None),
       w).
Proof.
  intros Hvalid Hfind Hpattern. rewrite subscribe_run. cbn zeta.
  rewrite Hvalid, Hfind. cbn [bool_decide decide_rel negb]. simpl.
  unfold Schema.saveNew, Schema.validate. cbn [Newsletter.email Newsletter.create].
  by rewrite Hpattern, andb_false_r.
Qed.

End Subscribing.

Section Unsubscribing.

Context `{EmailChecks} `{MailTransport} `{MailTemplates}.

Import NewsletterRoutes Http.

(** X5: the welcome message of a subscribe.  Every subscribe is answered;
    it hands a message to the transport exactly when it is answered with
    [success: true] (a new or reactivated subscription) and the
    transporter can be built, and then exactly one, addressed to the
    normalised address of the request; in every other case (validation
    failure, already subscribed, schema refusal) the outbox is as
    before. *)
Theorem subscribe_welcome_message req now w :
  let m := {| from := sender;
              to := normalizeEmail (email req);
              subject := "Welcome to Cyber Cloud Kenya Newsletter!";
              html := confirmationHtml (Validator.trim <$> name req) |} in
  ∃ r,
    (subscribe req now w).1 = Normal r
    ∧ outbox (subscribe req now w).2
        = outbox w ++ match createTransport (smtp w) with
                      | None => if success r then [m] else []
                      | Some _ => []
                      end.
Proof.
  cbn zeta. rewrite subscribe_run. cbn zeta.
  assert (∀ o : list MailOptions, o = o ++ []) as Hnil
    by (intros; by rewrite app_nil_r).
  assert (∀ c,
    outbox (EmailService.sendNewsletterConfirmation
              (normalizeEmail (email req)) (Validator.trim <$> name req)
              {| store := c; smtp := smtp w; outbox := outbox w |}).2
    = outbox w ++ match createTransport (smtp w) with
                  | None =>
                      [ {| from := sender;
                           to := normalizeEmail (email req);
                           subject :=
                             "Welcome to Cyber Cloud Kenya Newsletter!";
                           html :=
                             confirmationHtml (Validator.trim <$> name req) |} ]
                  | Some _ => []
                  end) as Hmail.
  { intros c. unfold EmailService.sendNewsletterConfirmation.
    rewrite sendOnce_run. cbn [smtp].
    destruct (createTransport (smtp w)); [apply Hnil | reflexivity]. }
  destruct (negb _).
  { eexists. split; [reflexivity |]. cbn.
    destruct (createTransport (smtp w)); apply Hnil. }
  destruct (Newsletter.findOne _ _) as [[i d] |].
  - destruct (Newsletter.isActive d).
    + eexists. split; [reflexivity |]. cbn.
      destruct (createTransport (smtp w)); apply Hnil.
    + destruct (Schema.validate _).
      * eexists. split; [reflexivity |]. cbn [snd fst json success].
        rewrite Hmail. by destruct (createTransport (smtp w)).
      * eexists. split; [reflexivity |]. cbn.
        destruct (createTransport (smtp w)); apply Hnil.
  - destruct (Schema.saveNew _ _) as [e | [d' c]].
    + eexists. split; [reflexivity |]. cbn.
      destruct (createTransport (smtp w)); apply Hnil.
    + eexists. split; [reflexivity |]. cbn [snd fst json success].
      rewrite Hmail. by destruct (createTransport (smtp w)).
Qed.

(** The link route run to its end. *)
Lemma unsubscribeLink_run e w :
  e ≠ EmptyString →
  unsubscribeLink (Some e) w =
    match Newsletter.findOne (Js.toLowerCase e) (store w) with
    | None =>
        (Normal (200%nat, Text "Email not found in our newsletter list"), w)
    | Some (i, d) =>
        if Newsletter.isActive d
        then
          if Schema.validate d
          then
            (Normal (200%nat, UnsubscribedPage),
             {| store := <[i := Newsletter.setIsActive false d]> (store w);
                smtp := smtp w;
                outbox := outbox w |})
          else
            (Normal (500%nat, Text "Server error. Please try again later."),
             w)
        else (Normal (200%nat, Text "You have already been unsubscribed"), w)
    end.
Proof.
  intros Hne.
  unfold unsubscribeLink, tryCatch, bind, getStore, saveExisting,
    Schema.saveExisting.
  destruct e as [| a e]; [done |].
  cbn [Js.truthyString negb]. cbn beta iota.
  destruct (Newsletter.findOne _ _) as [[i d] |]; [| done].
  destruct (Newsletter.isActive d); [| done]. cbn [negb].
  change (Schema.validate (Newsletter.setIsActive false d))
    with (Schema.validate d).
  by destruct (Schema.validate d).
Qed.

(** An address [normalizeEmail] leaves as it is is in lower case. *)
Lemma normal_lowercase e : normalizeEmail e = e → Js.toLowerCase e = e.
Proof.
  intros Hnormal. rewrite <- Hnormal at 1.
  by rewrite normalizeEmail_lowercase.
Qed.

(** X6: the link route and the POST route.  Without an address, or with
    an empty one, the link route answers 400 and changes nothing.  For a
    non-empty address that [isEmail] accepts and [normalizeEmail] leaves
    as it is, both routes leave the same world; they differ in what they
    say of an address that has no document: the link route answers 200,
    the POST route 404. *)
Theorem unsubscribeLink_agrees e w :
  unsubscribeLink None w
    = (Normal (400%nat, Text "Email parameter is required"), w)
  ∧ unsubscribeLink (Some EmptyString) w
    = (Normal (400%nat, Text "Email parameter is required"), w)
  ∧ (e ≠ EmptyString → isEmail e = true → normalizeEmail e = e →
     (unsubscribeLink (Some e) w).2 = (unsubscribe e w).2
     ∧ (Newsletter.findOne e (store w) = None →
        (unsubscribeLink (Some e) w).1
          = Normal (200%nat, Text "Email not found in our newsletter list")
        ∧ (unsubscribe e w).1
          = Normal (json 404 false "Email not found in our newsletter list"
                      None))).
Proof.
  split; [reflexivity |]. split; [reflexivity |].
  intros Hne Hvalid Hnormal.
  rewrite unsubscribeLink_run, unsubscribe_run by done.
  rewrite Hnormal, (normal_lowercase e Hnormal).
  split.
  - destruct (Newsletter.findOne _ _) as [[i d] |]; [| done].
    destruct (Newsletter.isActive d); [| done].
    by destruct (Schema.validate d).
  - by intros ->.
Qed.

(** Deactivating the first document of an address, in a collection with
    one document per address, leaves no active document of that
    address. *)
Lemma deactivated_not_active e (c : list Newsletter.t) :
  NoDup (Newsletter.email <$> c) →
  let c' := match Newsletter.findOne e c with
            | Some (i, d) =>
                if Newsletter.isActive d
                then <[i := Newsletter.setIsActive false d]> c
                else c
            | None => c
            end in
  ∀ d, d ∈ Newsletter.getActiveSubscribers c' → Newsletter.email d ≠ e.
Proof.
  intros Hdup c' d [Hd Hactive]%getActiveSubscribers_active He. subst c'.
  destruct (Newsletter.findOne e c) as [[i d0] |] eqn:Hfind.
  - pose proof Hfind as (Hi & He0 & _)%list_find_Some.
    apply list_elem_of_lookup in Hd as [j Hj].
    assert ((Newsletter.email <$> c) !! i = Some e) as Hei
      by (by rewrite list_lookup_fmap, Hi; cbn; rewrite He0).
    destruct (Newsletter.isActive d0) eqn:Hactive0.
    + assert ((Newsletter.email <$> c) !! j = Some e) as Hej.
      { destruct (decide (j = i)) as [-> | Hne]; [done |].
        rewrite list_lookup_insert_ne in Hj by done.
        by rewrite list_lookup_fmap, Hj; cbn; rewrite He. }
      assert (j = i) as -> by (by eapply NoDup_lookup).
      rewrite list_lookup_insert_eq in Hj by (by eapply lookup_lt_Some).
      by simplify_eq.
    + assert ((Newsletter.email <$> c) !! j = Some e) as Hej
        by (by rewrite list_lookup_fmap, Hj; cbn; rewrite He).
      assert (j = i) as -> by (by eapply NoDup_lookup).
      simplify_eq. congruence.
  - apply list_find_None in Hfind.
    by eapply (proj1 (Forall_forall _ _) Hfind).
Qed.

(** X7: after an unsubscribe, by either route, of an address the route
    takes (one [isEmail] accepts for the POST route, a non-empty one for
    the link route), in a collection with one document per address and
    only documents the schema accepts, no active subscriber has the
    address the route looked for, the normalised one for the POST route
    and the lower-cased one for the link route: no audience of a later
    broadcast contains it. *)
Theorem unsubscribed_not_in_audience e w :
  NoDup (Newsletter.email <$> store w) →
  Forall (λ d, Schema.validate d = true) (store w) →
  (isEmail e = true →
   ∀ d, d ∈ Newsletter.getActiveSubscribers (store (unsubscribe e w).2) →
        Newsletter.email d ≠ normalizeEmail e)
  ∧ (e ≠ EmptyString →
     ∀ d, d ∈ Newsletter.getActiveSubscribers
                (store (unsubscribeLink (Some e) w).2) →
          Newsletter.email d ≠ Js.toLowerCase e).
Proof.
  intros Hdup Haccepted.
  assert (∀ a i d0, Newsletter.findOne a (store w) = Some (i, d0) →
                    Schema.validate d0 = true) as Hfound.
  { intros a i d0 (Hi%list_elem_of_lookup_2 & _ & _)%list_find_Some.
    by apply (proj1 (Forall_forall _ _) Haccepted). }
  split.
  - intros Hvalid d Hd. rewrite unsubscribe_run in Hd by done.
    apply (deactivated_not_active (normalizeEmail e) (store w) Hdup d).
    destruct (Newsletter.findOne _ _) as [[i d0] |] eqn:Hfind; [| done].
    rewrite (Hfound _ _ _ Hfind) in Hd.
    by destruct (Newsletter.isActive d0).
  - intros Hne d Hd. rewrite unsubscribeLink_run in Hd by done.
    apply (deactivated_not_active (Js.toLowerCase e) (store w) Hdup d).
    destruct (Newsletter.findOne _ _) as [[i d0] |] eqn:Hfind; [| done].
    rewrite (Hfound _ _ _ Hfind) in Hd.
    by destruct (Newsletter.isActive d0).
Qed.

End Unsubscribing.

(** ** Broadcasting *)

Section Broadcasting.

Context {transport : MailTransport} {templates : MailTemplates}.

Import EmailService AdminRoutes Http.

(** The broadcast route run to its end, branch by branch. *)
Lemma sendNewsletterRoute_run req now (w : @World transport) :
  sendNewsletterRoute req now w =
    let errors := Validator.collect (sendChecks req) in
    let audience :=
      selectSubscribers (targetAudience req) (interest req) (store w) in
    if negb (bool_decide (errors = []))
    then (Normal (validationFailed errors), w)
    else if Nat.eqb (length audience) 0
    then (Normal (json 400 false
                    "No active subscribers found for the selected criteria"
                    None), w)
    else
      match createTransport (smtp w) with
      | Some e => (Normal (json 500 false "Server error" None), w)
      | None =>
          let mails :=
            newsletterMail (Validator.trim (subject req))
              (Validator.trim (content req)) <$> audience in
          let results :=
            zip_with Trace.outcome audience
              (Trace.replies (smtp w) mails) in
          let ok := filter (λ r, succeeded r = true) results in
          let bad := filter (λ r, negb (succeeded r) = true) results in
          (Normal (json 200 true (sentMessage (length ok))
                     (Some (SendSummary (length audience) (length ok)
                              (length bad)))),
           {| store := recordDeliveries now ok (store w);
              smtp := Trace.after (smtp w) mails;
              outbox := outbox w ++ mails |})
      end.
Proof.
  cbn zeta. unfold sendNewsletterRoute, tryCatch.
  destruct (negb _); [done |]. unfold bind at 1. simpl.
  destruct (Nat.eqb _ 0); [done |]. unfold bind at 1.
  destruct (createTransport (smtp w)) as [e |] eqn:E.
  - rewrite (sendNewsletter_broken _ _ _ _ e) by done. reflexivity.
  - rewrite sendNewsletter_working by done. reflexivity.
Qed.

Lemma filter_split_length {A} (p : A → bool) (l : list A) :
  (length (filter (λ x, p x = true) l)
   + length (filter (λ x, negb (p x) = true) l))%nat = length l.
Proof.
  induction l as [| x l IH]; [done |].
  rewrite !filter_cons. destruct (p x) eqn:Hp; simpl; lia.
Qed.

Lemma succeeded_outcomes (subscribers : list Newsletter.t) :
  ∀ replies : list (string + Js.Error),
  length replies = length subscribers →
  length (filter (λ r, succeeded r = true)
            (zip_with Trace.outcome subscribers replies))
    = length (filter (λ reply, Trace.accepted reply = true) replies).
Proof.
  induction subscribers as [| s subscribers IH]; intros [| r replies] Hlen;
    simplify_eq/=; [done |].
  rewrite !filter_cons. specialize (IH replies Hlen).
  destruct r as [id | e]; simpl; by rewrite IH.
Qed.

End Broadcasting.

Section BroadcastReport.

Context {transport : MailTransport} {templates : MailTemplates}.

Import EmailService AdminRoutes Http.

(** X11: the report of a broadcast.  A valid request with a non-empty
    audience gets no report when building the transporter throws, as the
    call [nodemailer.createTransporter] of the service does: the answer is
    500 and nothing has changed.  Over a transporter that can be built it
    is answered 200 with [totalSubscribers] the size of the audience,
    [successfulSends] the number of messages the transport accepted, and
    [failedSends] the rest: the two add up to the total. *)
Theorem sendNewsletterRoute_report req now (w : @World transport) :
  let audience :=
    selectSubscribers (targetAudience req) (interest req) (store w) in
  let mails :=
    newsletterMail (Validator.trim (subject req))
      (Validator.trim (content req)) <$> audience in
  Validator.collect (sendChecks req) = [] →
  audience ≠ [] →
  match createTransport (smtp w) with
  | Some _ =>
      sendNewsletterRoute req now w
        = (Normal (json 500 false "Server error" None), w)
  | None =>
      ∃ ok bad,
        (sendNewsletterRoute req now w).1
          = Normal (json 200 true (sentMessage ok)
                      (Some (SendSummary (length audience) ok bad)))
        ∧ (ok + bad)%nat = length audience
        ∧ ok = length (filter (λ reply, Trace.accepted reply = true)
                         (Trace.replies (smtp w) mails))
  end.
Proof.
  intros audience mails Hvalid Hsome.
  rewrite sendNewsletterRoute_run. cbn zeta. fold audience. fold mails.
  rewrite Hvalid. rewrite bool_decide_eq_true_2 by done. cbn [negb].
  destruct (Nat.eqb (length audience) 0) eqn:Hz.
  { by apply Nat.eqb_eq, nil_length_inv in Hz. }
  destruct (createTransport (smtp w)) as [e |]; [reflexivity |].
  cbn [fst].
  assert (length (Trace.replies (smtp w) mails) = length audience) as Hlen
    by (unfold mails; by rewrite replies_length, length_fmap).
  eexists _, _. split; [reflexivity |]. split.
  - rewrite filter_split_length, length_zip_with. lia.
  - by apply succeeded_outcomes.
Qed.

(** X12: whom a broadcast reaches.  Whatever the request, the messages
    the route hands to the transport are each addressed to a document of
    the collection that is active: nobody who unsubscribed is mailed, and
    nobody outside the collection. *)
Theorem sendNewsletterRoute_mails_only_active req now (w : @World transport) :
  ∃ mails,
    outbox (sendNewsletterRoute req now w).2 = outbox w ++ mails
    ∧ ∀ m, m ∈ mails →
        ∃ d, d ∈ store w ∧ Newsletter.isActive d = true
             ∧ to m = Newsletter.email d.
Proof.
  rewrite sendNewsletterRoute_run. cbn zeta.
  assert (∃ mails : list MailOptions,
            outbox w = outbox w ++ mails
            ∧ ∀ m, m ∈ mails →
                ∃ d, d ∈ store w ∧ Newsletter.isActive d = true
                     ∧ to m = Newsletter.email d) as Hnone.
  { exists []. split; [by rewrite app_nil_r |]. by intros m ?%elem_of_nil. }
  destruct (negb _); [exact Hnone |].
  destruct (Nat.eqb _ 0); [exact Hnone |].
  destruct (createTransport (smtp w)); [exact Hnone |].
  eexists. split; [reflexivity |].
  intros m (d & -> & Hd)%list_elem_of_fmap. exists d.
  assert (d ∈ store w ∧ Newsletter.isActive d = true) as [? ?];
    [| by repeat split].
  revert Hd. unfold selectSubscribers.
  destruct (interest req) as [tag |]; [destruct (_ && _) |];
    rewrite ?getSubscribersByInterest_spec, ?getActiveSubscribers_active;
    tauto.
Qed.

(** X13: what a broadcast changes in the collection.  Whatever the
    request and the transport, every document stays at its position and
    is either left as it was or has its delivery counted ([emailCount]
    stepped by [$inc], [lastEmailSent] now): the route never adds or removes a
    document and never changes an address, a name, the interests or
    [isActive]. *)
Theorem sendNewsletterRoute_frame req now (w : @World transport) :
  length (store (sendNewsletterRoute req now w).2) = length (store w)
  ∧ ∀ i d,
      store w !! i = Some d →
      store (sendNewsletterRoute req now w).2 !! i = Some d
      ∨ store (sendNewsletterRoute req now w).2 !! i
          = Some (Newsletter.countDelivery now d).
Proof.
  destruct (sendNewsletterRoute_store_cases req now w) as [-> | [ok ->]].
  - split; [done |]. by left.
  - unfold recordDeliveries, Newsletter.updateMany. split.
    + by rewrite length_fmap.
    + intros i d Hd. rewrite list_lookup_fmap, Hd. cbn.
      destruct (bool_decide _); auto.
Qed.

End BroadcastReport.

Section Audiences.

Import AdminRoutes.



End Audiences.

(** ** Sequences of requests *)

Section Sequences.

Context {checks : EmailChecks} {transport : MailTransport}
  {templates : MailTemplates}.

Import Lifecycle Http.

(** X4: every request is answered, and a refusal changes nothing.  None
    of the three routes lets an exception escape; and when the answer has
    [success: false] (validation failure, already subscribed, unknown
    address, empty audience, schema refusal, transporter that cannot be
    built) the world is exactly as before: nothing stored, nothing
    mailed. *)
Theorem refusal_changes_nothing (w : @World transport) op :
  ∃ r, answer w op = Normal r ∧ (success r = false → step w op = w).
Proof.
  destruct op as [req now | email | req now]; cbn [answer step].
  - rewrite subscribe_run. cbn zeta.
    destruct (negb _); [by eexists |].
    destruct (Newsletter.findOne _ _) as [[i d] |].
    + destruct (Newsletter.isActive d); [by eexists |].
      destruct (Schema.validate _); by eexists.
    + destruct (Schema.saveNew _ _) as [e | [d' c]]; by eexists.
  - destruct (isEmail email) eqn:Hvalid.
    + rewrite unsubscribe_run by done.
      destruct (Newsletter.findOne _ _) as [[i d] |]; [| by eexists].
      destruct (Newsletter.isActive d); [| by eexists].
      destruct (Schema.validate d); by eexists.
    + rewrite unsubscribe_rejected by done. by eexists.
  - rewrite sendNewsletterRoute_run. cbn zeta.
    destruct (negb _); [by eexists |].
    destruct (Nat.eqb _ 0); [by eexists |].
    destruct (createTransport (smtp w)); by eexists.
Qed.

(** What one request can do to the collection: nothing, replace one
    document by one of the same address and count, append a document
    whose address is new, or count deliveries. *)
Lemma step_shape (w : @World transport) op :
  store (step w op) = store w
  ∨ (∃ i d d',
       store w !! i = Some d
       ∧ store (step w op) = <[i := d']> (store w)
       ∧ Newsletter.email d' = Newsletter.email d
       ∧ Newsletter.emailCount d' = Newsletter.emailCount d)
  ∨ (∃ d',
       store (step w op) = store w ++ [d']
       ∧ Newsletter.email d' ∉ Newsletter.email <$> store w)
  ∨ (∃ now emails,
       store (step w op)
         = Newsletter.updateMany emails (Newsletter.countDelivery now)
             (store w)).
Proof.
  destruct op as [req now | email | req now]; cbn [step].
  - pose proof (f_equal snd (subscribe_summary req now w)) as Hs.
    cbn [snd] in Hs. rewrite Hs. clear Hs. cbn zeta.
    destruct (negb _); [by left |].
    destruct (Newsletter.findOne _ _) as [[i d] |] eqn:Hfind.
    + destruct (Newsletter.isActive d); [by left |].
      destruct (Schema.validate _); [| by left].
      apply list_find_Some in Hfind as (Hi & _ & _).
      right; left. by eexists i, d, _.
    + unfold Schema.saveNew.
      destruct (negb (Schema.validate _)); [by left |].
      destruct (bool_decide (_ ∈ _)) eqn:Hdup; [by left |].
      apply bool_decide_eq_false in Hdup.
      right; right; left. by eexists.
  - destruct (isEmail email) eqn:Hvalid.
    + rewrite unsubscribe_run by done.
      destruct (Newsletter.findOne _ _) as [[i d] |] eqn:Hfind;
        [| by left].
      destruct (Newsletter.isActive d); [| by left].
      destruct (Schema.validate d); [| by left].
      apply list_find_Some in Hfind as (Hi & _ & _).
      right; left. by eexists i, d, _.
    + rewrite unsubscribe_rejected by done. by left.
  - destruct (sendNewsletterRoute_store_cases req now w) as [-> | [ok ->]];
      [by left |].
    right; right; right. by eexists _, _.
Qed.

Lemma updateMany_emails emails now (c : list Newsletter.t) :
  Newsletter.email
    <$> Newsletter.updateMany emails (Newsletter.countDelivery now) c
  = Newsletter.email <$> c.
Proof.
  unfold Newsletter.updateMany. rewrite <- list_fmap_compose.
  apply list_fmap_ext. intros i d _. cbn. by destruct (bool_decide _).
Qed.

Lemma step_NoDup (w : @World transport) op :
  NoDup (Newsletter.email <$> store w) →
  NoDup (Newsletter.email <$> store (step w op)).
Proof.
  intros Hdup.
  destruct (step_shape w op)
    as [-> | [(i & d & d' & Hi & -> & He & _)
           | [(d' & -> & Hfresh) | (now & emails & ->)]]].
  - done.
  - rewrite list_fmap_insert, list_insert_id; [done |].
    by rewrite list_lookup_fmap, Hi, He.
  - rewrite fmap_app. apply NoDup_app. split; [done |]. split.
    + intros e He [-> | []%elem_of_nil]%elem_of_cons. done.
    + apply NoDup_singleton.
  - by rewrite updateMany_emails.
Qed.

(** X8: one document per address, always.  If no two documents of the
    collection share an address, no sequence of subscribe, unsubscribe and
    broadcast requests makes two documents share one. *)
Theorem run_keeps_addresses_unique ops : ∀ w : @World transport,
  NoDup (Newsletter.email <$> store w) →
  NoDup (Newsletter.email <$> store (run ops w)).
Proof.
  induction ops as [| op ops IH]; intros w Hdup; [done |].
  unfold run. cbn [foldl]. apply IH. by apply step_NoDup.
Qed.

Lemma step_keeps_documents (w : @World transport) op i d :
  store w !! i = Some d →
  ∃ d', store (step w op) !! i = Some d'
        ∧ Newsletter.email d' = Newsletter.email d
        ∧ Newsletter.emailCount d ≤ Newsletter.emailCount d'.
Proof.
  intros Hd.
  destruct (step_shape w op)
    as [-> | [(j & d0 & d' & Hj & -> & He & Hc)
           | [(d' & -> & Hfresh) | (now & emails & ->)]]].
  - exists d. by split; [| split; [| lia]].
  - destruct (decide (i = j)) as [-> | Hne].
    + exists d'. rewrite list_lookup_insert_eq by (by eapply lookup_lt_Some).
      simplify_eq. split; [done |]. split; [done | lia].
    + exists d. rewrite list_lookup_insert_ne by done.
      by split; [| split; [| lia]].
  - exists d. rewrite lookup_app_l by (by eapply lookup_lt_Some).
    by split; [| split; [| lia]].
  - unfold Newsletter.updateMany. rewrite list_lookup_fmap, Hd. cbn.
    eexists. split; [reflexivity |].
    destruct (bool_decide _); cbn; (split; [done |]);
      [apply plusOne_le | lia].
Qed.

(** X9: documents stay, and their counters only grow.  Over any sequence
    of subscribe, unsubscribe and broadcast requests, a document of the
    collection is still at its position at the end, under the same
    address, and its [emailCount] is at least what it was: these routes
    never delete a document, never re-address one, and never lower or
    reset a counter. *)
Theorem run_keeps_documents ops : ∀ (w : @World transport) i d,
  store w !! i = Some d →
  ∃ d', store (run ops w) !! i = Some d'
        ∧ Newsletter.email d' = Newsletter.email d
        ∧ Newsletter.emailCount d ≤ Newsletter.emailCount d'.
Proof.
  induction ops as [| op ops IH]; intros w i d Hd.
  - exists d. by split; [| split; [| lia]].
  - unfold run. cbn [foldl].
    destruct (step_keeps_documents w op i d Hd) as (d1 & H1 & He1 & Hc1).
    destruct (IH (step w op) i d1 H1) as (d2 & H2 & He2 & Hc2).
    exists d2. split; [exact H2 |]. split; [congruence | lia].
Qed.

Lemma step_keeps_accepted (w : @World transport) op :
  Forall (λ d, Schema.validate d = true) (store w) →
  Forall (λ d, Schema.validate d = true) (store (step w op)).
Proof.
  intros Hinv. destruct op as [req now | email | req now]; cbn [step].
  - pose proof (f_equal snd (subscribe_summary req now w)) as Hs.
    cbn [snd] in Hs. rewrite Hs. clear Hs. cbn zeta.
    destruct (negb _); [done |].
    destruct (Newsletter.findOne _ _) as [[i d] |].
    + destruct (Newsletter.isActive d); [done |].
      destruct (Schema.validate _) eqn:Haccepted; [| done]. cbn [snd].
      by apply Forall_insert.
    + unfold Schema.saveNew.
      destruct (Schema.validate _) eqn:Haccepted; [| done]. cbn [negb].
      destruct (bool_decide (_ ∈ _)); [done |]. cbn [snd].
      apply Forall_app. split; [done |].
      by apply Forall_singleton, validate_preSave.
  - destruct (isEmail email) eqn:Hvalid.
    + rewrite unsubscribe_run by done.
      destruct (Newsletter.findOne _ _) as [[i d] |]; [| done].
      destruct (Newsletter.isActive d); [| done].
      destruct (Schema.validate d) eqn:Haccepted; [| done]. cbn [snd store].
      by apply Forall_insert.
    + by rewrite unsubscribe_rejected.
  - destruct (sendNewsletterRoute_store_cases req now w) as [-> | [ok ->]];
      [done |].
    unfold AdminRoutes.recordDeliveries, Newsletter.updateMany.
    apply Forall_fmap. eapply Forall_impl; [exact Hinv |].
    intros d Hd. cbn. by destruct (bool_decide _).
Qed.

(** X21: the routes store only what the schema accepts.  If every
    document of the collection is one the schema accepts, so is every
    document after any sequence of subscribe, unsubscribe and broadcast
    requests: a [save()] that the schema refuses writes nothing, and
    counting a delivery touches no validated path. *)
Theorem run_keeps_documents_accepted ops : ∀ w : @World transport,
  Forall (λ d, Schema.validate d = true) (store w) →
  Forall (λ d, Schema.validate d = true) (store (run ops w)).
Proof.
  induction ops as [| op ops IH]; intros w Hinv; [done |].
  unfold run. cbn [foldl]. apply IH. by apply step_keeps_accepted.
Qed.

End Sequences.

Section RoundTrip.

Context {checks : EmailChecks} {transport : MailTransport}
  {templates : MailTemplates}.

Import Lifecycle NewsletterRoutes.

Lemma findOne_app_fresh e (c : list Newsletter.t) d :
  Newsletter.findOne e c = None →
  Newsletter.email d = e →
  Newsletter.findOne e (c ++ [d]) = Some (length c, d).
Proof.
  unfold Newsletter.findOne. intros Hnone%list_find_None He.
  apply list_find_Some. split; [| split; [done |]].
  - by rewrite lookup_app_r, Nat.sub_diag.
  - intros j y Hj Hlt. rewrite lookup_app_l in Hj by done.
    apply (proj1 (Forall_forall _ _) Hnone).
    by eapply list_elem_of_lookup_2.
Qed.

Lemma insert_last {A} (c : list A) (x y : A) :
  <[length c := y]> (c ++ [x]) = c ++ [y].
Proof. by rewrite insert_app_r_alt, Nat.sub_diag. Qed.

Lemma valid_isEmail req :
  Validator.collect (subscribeChecks req) = [] → isEmail (email req) = true.
Proof.
  intros Hvalid. apply (collect_nil _ Hvalid "email").
  unfold subscribeChecks. rewrite !elem_of_cons. auto.
Qed.

(** X10: subscribe, unsubscribe, subscribe again.  For an address that
    has no document, a valid first subscription the schema accepts,
    followed by an unsubscribe of the same address and a second valid
    subscription the schema accepts as well, leaves the collection with
    exactly one more document than before, at the end: that address,
    active, dated as the second subscription, with the name and interests
    of the second request where it has them and those stored by the first
    otherwise. *)
Theorem resubscribe_round_trip req req' t1 t3 (w : @World transport) :
  let address := normalizeEmail (email req) in
  Validator.collect (subscribeChecks req) = [] →
  Validator.collect (subscribeChecks req') = [] →
  email req' = email req →
  Newsletter.findOne address (store w) = None →
  Schema.validate
    (Newsletter.create address (Validator.trim <$> name req)
       (Js.orArray (interests req) ["all"]) (ip req) (userAgent req) t1)
    = true →
  Schema.validate
    (Newsletter.create address (Validator.trim <$> name req')
       (Js.orArray (interests req') ["all"]) (ip req') (userAgent req') t3)
    = true →
  ∃ d,
    store (run [ Subscribe req t1; Unsubscribe (email req);
                 Subscribe req' t3 ] w)
      = store w ++ [d]
    ∧ Newsletter.email d = address
    ∧ Newsletter.isActive d = true
    ∧ Newsletter.subscriptionDate d = t3
    ∧ Newsletter.emailCount d = 0
    ∧ Newsletter.name d
        = match name req' with
          | Some n => Some (Validator.trim n)
          | None => Validator.trim <$> name req
          end
    ∧ Newsletter.interests d
        = match interests req' with
          | Some tags => tags
          | None =>
              match interests req with
              | Some (tag :: tags) => tag :: tags
              | _ => ["all"]
              end
          end.
Proof.
  intros address Hvalid Hvalid' Hsame Hfresh Hschema Hschema'.
  assert (Validator.optional (λ n, Nat.leb (Js.length n) 100)
            (Validator.trim <$> name req') = true) as Hfits.
  { revert Hschema'. unfold Schema.validate.
    cbn [Newsletter.name Newsletter.create].
    rewrite !andb_true_iff. tauto. }
  unfold run. cbn [foldl step].
  (* the first subscription *)
  pose proof (f_equal snd (subscribe_summary req t1 w)) as H1.
  cbn [snd] in H1. cbn zeta in H1. fold address in H1.
  rewrite Hvalid, Hfresh in H1.
  rewrite bool_decide_eq_true_2 in H1 by done. cbn [negb] in H1.
  rewrite saveNew_fresh in H1 by done. cbn [snd] in H1.
  set (w1 := (subscribe req t1 w).2) in *.
  set (d1 := Newsletter.preSave true _) in H1.
  assert (Newsletter.email d1 = address) as He1.
  { unfold d1, Newsletter.preSave. by destruct (_ && _). }
  assert (Newsletter.isActive d1 = true) as Ha1.
  { unfold d1, Newsletter.preSave. by destruct (_ && _). }
  assert (Schema.validate d1 = true) as Hv1 by (by apply validate_preSave).
  (* the unsubscribe *)
  pose proof (unsubscribe_run (email req) w1 (valid_isEmail req Hvalid)) as H2.
  fold address in H2. rewrite H1 in H2.
  rewrite (findOne_app_fresh _ _ d1 Hfresh He1), Ha1, Hv1, insert_last in H2.
  set (w2 := (unsubscribe (email req) w1).2) in *.
  assert (store w2 = store w ++ [Newsletter.setIsActive false d1]) as Hs2
    by (unfold w2; by rewrite H2).
  (* the second subscription *)
  pose proof (f_equal snd (subscribe_summary req' t3 w2)) as H3.
  cbn [snd] in H3. cbn zeta in H3. rewrite Hsame in H3. fold address in H3.
  rewrite Hvalid', Hs2 in H3.
  rewrite bool_decide_eq_true_2 in H3 by done. cbn [negb] in H3.
  rewrite (findOne_app_fresh _ _ (Newsletter.setIsActive false d1) Hfresh)
    in H3 by done.
  rewrite (reactivation_accepted req' t3 (Newsletter.setIsActive false d1))
    in H3 by done.
  cbn [Newsletter.isActive Newsletter.setIsActive snd] in H3.
  rewrite insert_last in H3.
  eexists. split; [exact H3 |]. cbn.
  rewrite (valid_name req') by done.
  split; [exact He1 |]. split; [done |]. split; [done |].
  split; [unfold d1, Newsletter.preSave; by destruct (_ && _) |].
  split.
  - destruct (name req'); [done |].
    unfold d1, Newsletter.preSave. by destruct (_ && _).
  - unfold Js.orArray. destruct (interests req'); [done |].
    unfold d1, Newsletter.preSave.
    by destruct (interests req) as [[| tag tags] |].
Qed.

End RoundTrip.

(** ** The address pattern of the schema *)

Section AddressPattern.

Import Pattern Language.

Lemma append_nil_r (s : string) : (s ++ EmptyString)%string = s.
Proof.
  induction s as [| c s IH]; [done |].
  change (String c (s ++ EmptyString)%string = String c s). by rewrite IH.
Qed.

Lemma append_assoc (s1 s2 s3 : string) :
  ((s1 ++ s2) ++ s3)%string = (s1 ++ (s2 ++ s3))%string.
Proof.
  induction s1 as [| c s1 IH]; [done |].
  change (String c ((s1 ++ s2) ++ s3)%string
          = String c (s1 ++ (s2 ++ s3))%string).
  by rewrite IH.
Qed.

Lemma nullable_Matches r : nullable r = true → Matches r EmptyString.
Proof.
  induction r as [| | p | r1 IH1 r2 IH2 | r1 IH1 r2 IH2 | r IH]; simpl;
    intros Hn; try done.
  - constructor.
  - apply andb_prop in Hn as [H1 H2].
    by eapply MSeq; [apply IH1 | apply IH2 |].
  - apply orb_prop in Hn as [H1 | H2].
    + by apply MAltL, IH1.
    + by apply MAltR, IH2.
  - constructor.
Qed.

Lemma deriv_Matches c r : ∀ s, Matches (deriv c r) s → Matches r (String c s).
Proof.
  induction r as [| | p | r1 IH1 r2 IH2 | r1 IH1 r2 IH2 | r IH]; simpl;
    intros s Hm.
  - inversion Hm.
  - inversion Hm.
  - destruct (p c) eqn:Hp; inversion Hm; subst. by constructor.
  - destruct (nullable r1) eqn:Hn.
    + inversion Hm as [| | | ? ? ? Hl | ? ? ? Hr | |]; subst.
      * inversion Hl as [| | ? ? s1 s2 ? H1 H2 | | | |]; subst.
        eapply MSeq; [by apply IH1 | exact H2 | done].
      * eapply MSeq; [by apply nullable_Matches | by apply IH2 | done].
    + inversion Hm as [| | ? ? s1 s2 ? H1 H2 | | | |]; subst.
      eapply MSeq; [by apply IH1 | exact H2 | done].
  - inversion Hm; subst.
    + by apply MAltL, IH1.
    + by apply MAltR, IH2.
  - inversion Hm as [| | ? ? s1 s2 ? H1 H2 | | | |]; subst.
    eapply MStarCons; [by apply IH | exact H2 | done].
Qed.

(** What [test] accepts is a string of the pattern. *)
Lemma test_Matches s : ∀ r, test r s = true → Matches r s.
Proof.
  induction s as [| c s IH]; simpl; intros r Ht.
  - by apply nullable_Matches.
  - by apply deriv_Matches, IH.
Qed.

Lemma allChars_app p (s1 s2 : string) :
  allChars p (s1 ++ s2)%string = allChars p s1 && allChars p s2.
Proof.
  induction s1 as [| c s1 IH]; [done |].
  change (p c && allChars p (s1 ++ s2)%string
          = p c && allChars p s1 && allChars p s2).
  by rewrite IH, andb_assoc.
Qed.

Lemma count_app p (s1 s2 : string) :
  count p (s1 ++ s2)%string = (count p s1 + count p s2)%nat.
Proof.
  induction s1 as [| c s1 IH]; [done |].
  change (((if p c then 1 else 0) + count p (s1 ++ s2)%string)%nat
          = ((if p c then 1 else 0) + count p s1 + count p s2)%nat).
  rewrite IH. lia.
Qed.

Lemma Matches_within p r s :
  Matches r s → within p r → allChars p s = true.
Proof.
  induction 1 as [| q c Hq | r1 r2 s1 s2 s _ IH1 _ IH2 -> | r1 r2 s _ IH
                 | r1 r2 s _ IH | r | r s1 s2 s _ IH1 _ IH2 ->];
    simpl; intros Hw.
  - done.
  - by rewrite (Hw c Hq).
  - destruct Hw. rewrite allChars_app, IH1, IH2; done.
  - destruct Hw. by apply IH.
  - destruct Hw. by apply IH.
  - done.
  - rewrite allChars_app, IH1, IH2; done.
Qed.

Lemma allChars_none p q (s : string) :
  (∀ c, p c = true → q c = false) →
  allChars p s = true → count q s = 0%nat.
Proof.
  intros Hpq. induction s as [| c s IH]; [done |]. simpl.
  intros [Hc Hs]%andb_prop. by rewrite (Hpq c Hc), IH.
Qed.

End AddressPattern.

Section AddressShape.

Import Pattern Language.

Ltac to_arith H :=
  unfold addressChar, notAt, word, dotOrDash, between, char in *;
  rewrite ?orb_true_iff, ?andb_true_iff, ?Nat.leb_le, ?Nat.eqb_eq in H.

Lemma word_notAt c : word c = true → notAt c = true.
Proof.
  intros Hw. to_arith Hw. apply negb_true_iff, Nat.eqb_neq. lia.
Qed.

Lemma dotOrDash_notAt c : dotOrDash c = true → notAt c = true.
Proof.
  intros Hw. to_arith Hw. apply negb_true_iff, Nat.eqb_neq. lia.
Qed.

Lemma dot_notAt c : char 46 c = true → notAt c = true.
Proof.
  intros Hw. to_arith Hw. apply negb_true_iff, Nat.eqb_neq. lia.
Qed.

Lemma words_notAt : within notAt words.
Proof.
  simpl. auto 10 using word_notAt, dotOrDash_notAt.
Qed.

Lemma label_notAt : within notAt label.
Proof. simpl. auto 10 using word_notAt, dot_notAt. Qed.

Lemma emailPattern_addressChar : within addressChar emailPattern.
Proof.
  simpl. repeat split; intros c Hc; unfold addressChar, dotOrDash in *;
    try rewrite Hc; rewrite ?orb_true_r; done.
Qed.

Lemma notAt_count (s : string) :
  allChars notAt s = true → count (char 64) s = 0%nat.
Proof.
  apply allChars_none. intros c Hc. by apply negb_true_iff in Hc.
Qed.

(** X18: the characters of an address the schema accepts.  Whatever
    [emailValidator] accepts is made of letters, digits, underscores,
    dots, dashes and at signs only, and has exactly one at sign: an
    address with a plus sign, a quote or a space is refused. *)
Theorem emailValidator_characters e :
  Schema.emailValidator e = true →
  allChars addressChar e = true ∧ count (char 64) e = 1%nat.
Proof.
  intros Hm%test_Matches. split.
  - by eapply Matches_within; [| apply emailPattern_addressChar].
  - unfold emailPattern in Hm.
    inversion Hm as [| | ? ? u rest ? Hu Hrest | | | |]; subst.
    inversion Hrest as [| | ? ? a v ? Ha Hv | | | |]; subst.
    inversion Ha as [| ? c Hc | | | | |]; subst.
    rewrite !count_app. cbn [count]. rewrite Hc.
    rewrite (notAt_count u), (notAt_count v); [done | |].
    + eapply Matches_within; [exact Hv |].
      split; [apply words_notAt |]. split; apply label_notAt.
    + eapply Matches_within; [exact Hu | apply words_notAt].
Qed.

(** A non-empty run of labels ends with a label. *)
Lemma star_last r s :
  Matches (Star r) s →
  s = EmptyString ∨ ∃ a b, s = (a ++ b)%string ∧ Matches r b.
Proof.
  remember (Star r) as r' eqn:Hr. intros Hm.
  induction Hm as [| | | | | | r0 s1 s2 s H1 _ H2 IH2 ->]; try done.
  - by left.
  - injection Hr as ->. right.
    destruct (IH2 eq_refl) as [-> | (a & b & -> & Hb)].
    + exists EmptyString, s1. by rewrite append_nil_r.
    + exists (s1 ++ a)%string, b. by rewrite append_assoc.
Qed.

Lemma char_eq n c : char n c = true → c = ascii_of_nat n.
Proof.
  unfold char. intros Hc%Nat.eqb_eq. by rewrite <- Hc, ascii_nat_embedding.
Qed.

Lemma label_shape b :
  Matches label b →
  ∃ tld, b = String "."%char tld
         ∧ (String.length tld = 2 ∨ String.length tld = 3)%nat
         ∧ allChars word tld = true.
Proof.
  unfold label. intros Hm.
  inversion Hm as [| | ? ? d r1 ? Hd Hr1 | | | |]; subst.
  inversion Hd as [| ? c0 Hc0 | | | | |]; subst.
  inversion Hr1 as [| | ? ? x1 r2 ? Hx1 Hr2 | | | |]; subst.
  inversion Hx1 as [| ? c1 Hc1 | | | | |]; subst.
  inversion Hr2 as [| | ? ? x2 r3 ? Hx2 Hr3 | | | |]; subst.
  inversion Hx2 as [| ? c2 Hc2 | | | | |]; subst.
  apply char_eq in Hc0 as ->.
  inversion Hr3 as [| | | ? ? ? Hl | ? ? ? Hr | |]; subst.
  - inversion Hl as [| ? c3 Hc3 | | | | |]; subst.
    exists (String c1 (String c2 (String c3 EmptyString))).
    split; [done |]. split; [by right |]. simpl.
    by rewrite Hc1, Hc2, Hc3.
  - inversion Hr; subst.
    exists (String c1 (String c2 EmptyString)).
    split; [done |]. split; [by left |]. simpl.
    by rewrite Hc1, Hc2.
Qed.

(** X19: the last label of an address the schema accepts.  Whatever
    [emailValidator] accepts ends with a dot followed by two or three
    letters, digits or underscores: an address under a longer top-level
    domain (.info, .academy) is refused by the schema although the route's
    [isEmail] check may let it through. *)
Theorem emailValidator_last_label e :
  Schema.emailValidator e = true →
  ∃ s tld,
    e = (s ++ String "."%char tld)%string
    ∧ (String.length tld = 2 ∨ String.length tld = 3)%nat
    ∧ allChars word tld = true.
Proof.
  intros Hm%test_Matches. unfold emailPattern in Hm.
  inversion Hm as [| | ? ? u rest ? Hu Hrest | | | |]; subst.
  inversion Hrest as [| | ? ? a rest' ? Ha Hrest' | | | |]; subst.
  inversion Hrest' as [| | ? ? v t ? Hv Ht | | | |]; subst.
  inversion Ht as [| | ? ? t1 t2 ? Ht1 Ht2 | | | |]; subst.
  destruct (star_last _ _ Ht2) as [-> | (x & b & -> & Hb)].
  - destruct (label_shape t1 Ht1) as (tld & -> & Hlen & Hword).
    exists (u ++ a ++ v)%string, tld.
    by rewrite append_nil_r, !append_assoc.
  - destruct (label_shape b Hb) as (tld & -> & Hlen & Hword).
    exists (u ++ a ++ v ++ t1 ++ x)%string, tld.
    by rewrite !append_assoc.
Qed.

End AddressShape.

(** ** The priority of a contact submission *)

Section ContactPriority.

Import Contact.

(** X20: the priority of a new contact submission.  When a submission is
    first saved the hook sets its priority from its service alone: high
    exactly for cyber-security, medium exactly for web-development and
    training-programs, low for everything else; so whatever priority the
    document was built with is overwritten, urgent never comes out, and
    nothing but the priority changes.  On a later save the hook changes
    nothing, and running it twice is running it once. *)
Theorem preSave_priority d :
  let d' := preSave true d in
  priority d' ∈ ["high"; "medium"; "low"]
  ∧ (priority d' = "high" ↔ service d = "cyber-security")
  ∧ (priority d' = "medium"
     ↔ service d = "web-development" ∨ service d = "training-programs")
  ∧ d' = setPriority (priority d') d
  ∧ preSave false d = d
  ∧ preSave true d' = d'.
Proof.
  cbn zeta. unfold preSave, highPriorityServices, mediumPriorityServices.
  destruct (bool_decide (service d ∈ ["cyber-security"])) eqn:Hh.
  - cbn [priority setPriority service].
    apply bool_decide_eq_true in Hh.
    rewrite (bool_decide_eq_true_2 _ Hh).
    apply list_elem_of_singleton in Hh.
    split; [rewrite !elem_of_cons; auto |].
    split; [done |]. split; [split; [done | intros [? | ?]; congruence] |].
    done.
  - destruct (bool_decide
                (service d ∈ ["web-development"; "training-programs"]))
      eqn:Hm.
    + cbn [priority setPriority service].
      apply bool_decide_eq_false in Hh. apply bool_decide_eq_true in Hm.
      rewrite (bool_decide_eq_false_2 _ Hh), (bool_decide_eq_true_2 _ Hm).
      rewrite list_elem_of_singleton in Hh.
      rewrite !elem_of_cons, elem_of_nil in Hm.
      split; [rewrite !elem_of_cons; auto |].
      split; [done |]. split; [tauto | done].
    + cbn [priority setPriority service].
      apply bool_decide_eq_false in Hh. apply bool_decide_eq_false in Hm.
      rewrite (bool_decide_eq_false_2 _ Hh), (bool_decide_eq_false_2 _ Hm).
      rewrite list_elem_of_singleton in Hh.
      rewrite !elem_of_cons, elem_of_nil in Hm.
      split; [rewrite !elem_of_cons; auto |].
      split; [done |]. split; [split; [done | tauto] | done].
Qed.

End ContactPriority.

(** * The further properties on concrete runs *)

Section FurtherRuns.

Import Fixture.

(** Witness of X1. *)
Lemma subscribe_already_subscribed_witness :
  let w := world [bob; ann] refusesFirst in
  Validator.collect (NewsletterRoutes.subscribeChecks subscribeAnn) = []
  ∧ Newsletter.findOne (normalizeEmail "a@x.com") (store w)
      = Some (1%nat, ann)
  ∧ Newsletter.isActive ann = true
  ∧ (NewsletterRoutes.subscribe subscribeAnn 9 w).2 = w.
Proof.
  intros w.
  assert (Validator.collect (NewsletterRoutes.subscribeChecks subscribeAnn)
            = []) as Hvalid by (vm_compute; reflexivity).
  assert (Newsletter.findOne (normalizeEmail "a@x.com") (store w)
            = Some (1%nat, ann)) as Hfind by (vm_compute; reflexivity).
  split; [exact Hvalid |]. split; [exact Hfind |]. split; [reflexivity |].
  by rewrite (subscribe_already_subscribed subscribeAnn 9 w 1%nat ann
                Hvalid Hfind eq_refl).
Defined.

(** Witness of X2: a first subscription with an empty array of
    interests. *)
Lemma subscribe_creates_witness :
  let w := world [bob] refusesFirst in
  let d0 :=
    Newsletter.create "a@x.com" None (Js.orArray (Some []) ["all"])
      None None 5 in
  Validator.collect (NewsletterRoutes.subscribeChecks subscribeAnnNoInterests)
    = []
  ∧ Newsletter.findOne "a@x.com" (store w) = None
  ∧ Schema.validate d0 = true
  ∧ ∃ d,
      store (NewsletterRoutes.subscribe subscribeAnnNoInterests 5 w).2
        = [bob; d]
      ∧ Newsletter.isActive d = true
      ∧ Newsletter.interests d = ["all"].
Proof.
  intros w d0.
  assert (Validator.collect
            (NewsletterRoutes.subscribeChecks subscribeAnnNoInterests) = [])
    as Hvalid by (vm_compute; reflexivity).
  assert (Newsletter.findOne
            (normalizeEmail (NewsletterRoutes.email subscribeAnnNoInterests))
            (store w) = None) as Hfind by (vm_compute; reflexivity).
  assert (Schema.validate d0 = true) as Hschema
    by (vm_compute; reflexivity).
  split; [exact Hvalid |]. split; [exact Hfind |]. split; [exact Hschema |].
  destruct (subscribe_creates subscribeAnnNoInterests 5 w
              Hvalid Hfind Hschema)
    as (d & Hstore & _ & _ & Hactive & _ & _ & _ & _ & Hinterests).
  exists d. split; [exact Hstore |]. split; [exact Hactive |].
  exact Hinterests.
Defined.

(** Witness of X3: an address with a plus sign, which the schema's
    pattern refuses. *)
Lemma subscribe_schema_refusal_witness :
  let w := world [bob] working in
  Validator.collect (NewsletterRoutes.subscribeChecks subscribePlus) = []
  ∧ Newsletter.findOne "ann+news@x.com" (store w) = None
  ∧ Schema.emailValidator "ann+news@x.com" = false
  ∧ NewsletterRoutes.subscribe subscribePlus 5 w
      = (Normal (Http.json 500 false "Server error. Please try again later."
                   None), w).
Proof.
  intros w.
  assert (Validator.collect (NewsletterRoutes.subscribeChecks subscribePlus)
            = []) as Hvalid by (vm_compute; reflexivity).
  assert (Newsletter.findOne
            (normalizeEmail (NewsletterRoutes.email subscribePlus))
            (store w) = None) as Hfind by (vm_compute; reflexivity).
  assert (Schema.emailValidator
            (normalizeEmail (NewsletterRoutes.email subscribePlus)) = false)
    as Hpattern by (vm_compute; reflexivity).
  split; [exact Hvalid |]. split; [exact Hfind |]. split; [exact Hpattern |].
  exact (subscribe_schema_refusal subscribePlus 5 w Hvalid Hfind Hpattern).
Defined.

(** Witness of X4: unsubscribing an address that has no document. *)
Lemma refusal_changes_nothing_witness :
  let w := world [ann] working in
  Lifecycle.answer w (Lifecycle.Unsubscribe "nobody@x.com")
    = Normal (Http.json 404 false "Email not found in our newsletter list"
                None)
  ∧ Lifecycle.step w (Lifecycle.Unsubscribe "nobody@x.com") = w.
Proof.
  intros w. split; [reflexivity |].
  destruct (refusal_changes_nothing w (Lifecycle.Unsubscribe "nobody@x.com"))
    as (r & Hr & Hsame).
  apply Hsame.
  assert (Lifecycle.answer w (Lifecycle.Unsubscribe "nobody@x.com")
          = Normal (Http.json 404 false
                      "Email not found in our newsletter list" None))
    as Hanswer by reflexivity.
  rewrite Hanswer in Hr. by injection Hr as <-.
Defined.

(** Witness of X6. *)
Lemma unsubscribeLink_agrees_witness :
  let w := world [bob; ann] working in
  isEmail "a@x.com" = true
  ∧ normalizeEmail "a@x.com" = "a@x.com"
  ∧ (NewsletterRoutes.unsubscribeLink (Some "a@x.com") w).2
    = (NewsletterRoutes.unsubscribe "a@x.com" w).2.
Proof.
  intros w.
  assert (isEmail "a@x.com" = true) as Hvalid by reflexivity.
  assert (normalizeEmail "a@x.com" = "a@x.com") as Hnormal by reflexivity.
  split; [exact Hvalid |]. split; [exact Hnormal |].
  destruct (unsubscribeLink_agrees "a@x.com" w) as (_ & _ & Hagree).
  exact (proj1 (Hagree ltac:(discriminate) Hvalid Hnormal)).
Defined.

(** Witness of X7: the POST route on Ann's address, and the link route
    on the same address in capitals. *)
Lemma unsubscribed_not_in_audience_witness :
  let w := world [ann; bob] unbuildable in
  NoDup (Newsletter.email <$> store w)
  ∧ Forall (λ d, Schema.validate d = true) (store w)
  ∧ isEmail "a@x.com" = true
  ∧ (∀ d, d ∈ Newsletter.getActiveSubscribers
                (store (NewsletterRoutes.unsubscribe "a@x.com" w).2) →
          Newsletter.email d ≠ "a@x.com")
  ∧ (∀ d, d ∈ Newsletter.getActiveSubscribers
                (store (NewsletterRoutes.unsubscribeLink (Some "A@X.COM")
                          w).2) →
          Newsletter.email d ≠ "a@x.com").
Proof.
  intros w.
  assert (NoDup (Newsletter.email <$> store w)) as Hdup
    by (apply (bool_decide_unpack _); reflexivity).
  assert (Forall (λ d, Schema.validate d = true) (store w)) as Haccepted
    by (repeat constructor).
  assert (isEmail "a@x.com" = true) as Hvalid by reflexivity.
  split; [exact Hdup |]. split; [exact Haccepted |].
  split; [exact Hvalid |]. split.
  - exact (proj1 (unsubscribed_not_in_audience "a@x.com" w Hdup Haccepted)
             Hvalid).
  - exact (proj2 (unsubscribed_not_in_audience "A@X.COM" w Hdup Haccepted)
             ltac:(discriminate)).
Defined.

(** Witness of X8: the same first subscription twice, an unsubscribe, a
    reactivation. *)
Lemma run_keeps_addresses_unique_witness :
  let w := world [bob] working in
  let ops :=
    [ Lifecycle.Subscribe subscribeAnn 1;
      Lifecycle.Subscribe subscribeAnn 2;
      Lifecycle.Unsubscribe "a@x.com";
      Lifecycle.Subscribe subscribeAnnAgain 3 ] in
  NoDup (Newsletter.email <$> store w)
  ∧ NoDup (Newsletter.email <$> store (Lifecycle.run ops w))
  ∧ Newsletter.email <$> store (Lifecycle.run ops w) = ["b@x.com"; "a@x.com"].
Proof.
  intros w ops.
  assert (NoDup (Newsletter.email <$> store w)) as Hdup
    by (apply (bool_decide_unpack _); reflexivity).
  split; [exact Hdup |]. split; [| reflexivity].
  exact (run_keeps_addresses_unique ops w Hdup).
Defined.

(** Witness of X9: two broadcasts around an unsubscribe. *)
Lemma run_keeps_documents_witness :
  let w := world [ann; bob; cat] refusesSecond in
  let ops :=
    [ Lifecycle.Broadcast (broadcast None None) 7;
      Lifecycle.Unsubscribe "a@x.com";
      Lifecycle.Broadcast (broadcast (Some "all") None) 8 ] in
  store w !! 0%nat = Some ann
  ∧ ∃ d', store (Lifecycle.run ops w) !! 0%nat = Some d'
          ∧ Newsletter.email d' = "a@x.com"
          ∧ 0 ≤ Newsletter.emailCount d'.
Proof.
  intros w ops. split; [reflexivity |].
  exact (run_keeps_documents ops w 0%nat ann eq_refl).
Defined.

(** Witness of X10: Ann subscribes with a name and an interest,
    unsubscribes, and subscribes again with nothing but her address. *)
Lemma resubscribe_round_trip_witness :
  let w := world [bob] working in
  ∃ d,
    store (Lifecycle.run
             [ Lifecycle.Subscribe subscribeAnn 1;
               Lifecycle.Unsubscribe "a@x.com";
               Lifecycle.Subscribe subscribeAnnAgain 9 ] w)
      = [bob; d]
    ∧ Newsletter.isActive d = true
    ∧ Newsletter.subscriptionDate d = 9
    ∧ Newsletter.name d = Some "Ann"
    ∧ Newsletter.interests d = ["web-development"].
Proof.
  intros w.
  assert (Validator.collect (NewsletterRoutes.subscribeChecks subscribeAnn)
            = []) as Hvalid by (vm_compute; reflexivity).
  assert (Validator.collect
            (NewsletterRoutes.subscribeChecks subscribeAnnAgain) = [])
    as Hvalid' by (vm_compute; reflexivity).
  assert (Newsletter.findOne
            (normalizeEmail (NewsletterRoutes.email subscribeAnn))
            (store w) = None) as Hfind by (vm_compute; reflexivity).
  assert (Schema.validate
            (Newsletter.create
               (normalizeEmail (NewsletterRoutes.email subscribeAnn))
               (Validator.trim <$> NewsletterRoutes.name subscribeAnn)
               (Js.orArray (NewsletterRoutes.interests subscribeAnn) ["all"])
               (NewsletterRoutes.ip subscribeAnn)
               (NewsletterRoutes.userAgent subscribeAnn) 1) = true)
    as Hschema by (vm_compute; reflexivity).
  assert (Schema.validate
            (Newsletter.create
               (normalizeEmail (NewsletterRoutes.email subscribeAnn))
               (Validator.trim <$> NewsletterRoutes.name subscribeAnnAgain)
               (Js.orArray (NewsletterRoutes.interests subscribeAnnAgain)
                  ["all"])
               (NewsletterRoutes.ip subscribeAnnAgain)
               (NewsletterRoutes.userAgent subscribeAnnAgain) 9) = true)
    as Hschema' by (vm_compute; reflexivity).
  destruct (resubscribe_round_trip subscribeAnn subscribeAnnAgain 1 9 w
              Hvalid Hvalid' eq_refl Hfind Hschema Hschema')
    as (d & Hstore & _ & Hactive & Hdate & _ & Hname & Hinterests).
  exists d. split; [exact Hstore |]. split; [exact Hactive |].
  split; [exact Hdate |]. split; [exact Hname | exact Hinterests].
Defined.

(** Witness of X11: the service as it runs, and three recipients over a
    transport that can be built and refuses the second. *)
Lemma sendNewsletterRoute_report_witness :
  let w := world [ann; bob; cat; dan] unbuildable in
  let w' := world [ann; bob; cat; dan] refusesSecond in
  let req := broadcast None None in
  Validator.collect (AdminRoutes.sendChecks req) = []
  ∧ AdminRoutes.selectSubscribers (AdminRoutes.targetAudience req)
      (AdminRoutes.interest req) (store w) = [ann; bob; cat]
  ∧ AdminRoutes.sendNewsletterRoute req 7 w
      = (Normal (Http.json 500 false "Server error" None), w)
  ∧ ∃ ok bad,
      (AdminRoutes.sendNewsletterRoute req 7 w').1
        = Normal (Http.json 200 true (AdminRoutes.sentMessage ok)
                    (Some (Http.SendSummary 3 ok bad)))
      ∧ (ok + bad)%nat = 3%nat.
Proof.
  intros w w' req. split; [reflexivity |]. split; [reflexivity |].
  split.
  - exact (sendNewsletterRoute_report req 7 w eq_refl ltac:(discriminate)).
  - pose proof (sendNewsletterRoute_report req 7 w' eq_refl
                  ltac:(discriminate)) as Hreport.
    destruct Hreport as (ok & bad & Hanswer & Hsum & _).
    exists ok, bad. split; [exact Hanswer | exact Hsum].
Defined.

(** Witness of X13. *)
Lemma sendNewsletterRoute_frame_witness :
  let w := world [ann; dan] working in
  let w' := (AdminRoutes.sendNewsletterRoute (broadcast None None) 7 w).2 in
  store w !! 1%nat = Some dan
  ∧ (store w' !! 1%nat = Some dan
     ∨ store w' !! 1%nat = Some (Newsletter.countDelivery 7 dan)).
Proof.
  intros w w'. split; [reflexivity |].
  exact (proj2 (sendNewsletterRoute_frame (broadcast None None) 7 w)
           1%nat dan eq_refl).
Defined.


(** Witness of X18. *)
Lemma emailValidator_characters_witness :
  Schema.emailValidator "ann.lee@x-mail.co.ke" = true
  ∧ Language.count (Pattern.char 64) "ann.lee@x-mail.co.ke" = 1%nat.
Proof.
  assert (Schema.emailValidator "ann.lee@x-mail.co.ke" = true) as Hok
    by (vm_compute; reflexivity).
  split; [exact Hok |].
  exact (proj2 (emailValidator_characters "ann.lee@x-mail.co.ke" Hok)).
Defined.

(** Witness of X19. *)
Lemma emailValidator_last_label_witness :
  Schema.emailValidator "ann.lee@x-mail.co.ke" = true
  ∧ ∃ s tld,
      "ann.lee@x-mail.co.ke" = (s ++ String "."%char tld)%string
      ∧ (String.length tld = 2 ∨ String.length tld = 3)%nat.
Proof.
  assert (Schema.emailValidator "ann.lee@x-mail.co.ke" = true) as Hok
    by (vm_compute; reflexivity).
  split; [exact Hok |].
  destruct (emailValidator_last_label "ann.lee@x-mail.co.ke" Hok)
    as (s & tld & Heq & Hlen & _).
  exists s, tld. split; [exact Heq | exact Hlen].
Defined.

(** A general inquiry built with priority urgent is stored with priority
    low. *)
Example general_inquiry_is_low :
  Contact.priority (Contact.preSave true (inquiry "general-inquiry" "urgent"))
    = "low".
Proof. reflexivity. Qed.

(** Witness of X21: a subscription the schema refuses, one it accepts,
    an unsubscribe and a broadcast. *)
Lemma run_keeps_documents_accepted_witness :
  let w := world [bob] unbuildable in
  let ops :=
    [ Lifecycle.Subscribe subscribePlus 1;
      Lifecycle.Subscribe subscribeAnnNoInterests 2;
      Lifecycle.Unsubscribe "a@x.com";
      Lifecycle.Broadcast (broadcast None None) 3 ] in
  Forall (λ d, Schema.validate d = true) (store w)
  ∧ Forall (λ d, Schema.validate d = true) (store (Lifecycle.run ops w))
  ∧ Newsletter.email <$> store (Lifecycle.run ops w) = ["b@x.com"; "a@x.com"].
Proof.
  intros w ops.
  assert (Forall (λ d, Schema.validate d = true) (store w)) as Haccepted
    by (repeat constructor).
  split; [exact Haccepted |]. split; [| reflexivity].
  exact (run_keeps_documents_accepted ops w Haccepted).
Defined.

(** [trim()] strips the white space of [\s], beyond ASCII too, and
    [isLength] counts characters, not bytes: a byte order mark, a no-break
    space, an em space and an ideographic space around a name are
    stripped, and a name of one two-byte letter is too short. *)
Example trim_and_isLength_characters :
  Validator.trim
    (Js.bytes [239; 187; 191; 194; 160; 65; 110; 110;
               226; 128; 131; 227; 128; 128]%nat)
    = "Ann"
  ∧ Validator.isLength 2 100 (Js.bytes [195; 169]%nat) = false
  ∧ Validator.isLength 2 100 "Al" = true.
Proof. vm_compute. done. Qed.

(** The link route takes an address [isEmail] would refuse; when the
    document it finds is one the schema refuses, [save()] throws, the
    answer is 500, and the subscriber stays active. *)
Example unsubscribeLink_any_address :
  let odd := subscriber "not an address" ["all"] true in
  let w := world [odd] unbuildable in
  isEmail "not an address" = false
  ∧ Schema.validate odd = false
  ∧ NewsletterRoutes.unsubscribeLink (Some "not an address") w
      = (Normal (500%nat,
                 NewsletterRoutes.Text "Server error. Please try again later."),
         w).
Proof. vm_compute. done. Qed.

(** The link route lower-cases the address it is given before it looks
    for it. *)
Example unsubscribeLink_capitals :
  let w := world [ann] unbuildable in
  (NewsletterRoutes.unsubscribeLink (Some "A@X.COM") w).1
    = Normal (200%nat, NewsletterRoutes.UnsubscribedPage)
  ∧ store (NewsletterRoutes.unsubscribeLink (Some "A@X.COM") w).2
      = [Newsletter.setIsActive false ann].
Proof. vm_compute. done. Qed.

(** An active document whose address the schema refuses cannot be
    unsubscribed: [save()] throws, and the subscriber stays active. *)
Example stored_address_refused :
  let w := world [subscriber "ann+news@x.com" ["all"] true] unbuildable in
  NewsletterRoutes.unsubscribe "ann+news@x.com" w
    = (Normal (Http.json 500 false "Server error. Please try again later."
                 None), w).
Proof. vm_compute. done. Qed.

End FurtherRuns.
